(** * MyAviary: a single-drone reinforcement-learning environment

    A shallow embedding of [src/Base.py] (class [MyAviary], a subclass of
    gym-pybullet-drones' [BaseAviary]) and the properties of its action
    decoder, observation encoder, reward/termination evaluator and target
    manager.

    Conventions of the embedding.
    - numpy [float64] values are read as real numbers: [+], [-], [*], [/],
      [np.abs], [np.linalg.norm] and the comparisons are the ones of [R].
      Rounding is not modelled, and a division by zero stops the model.
      Where a norm is tested against zero, the value tested is the one
      numpy computes ([linalg_norm] of the collaborators).
    - a one-dimensional [ndarray] is a [list R]; slices [a[i:j]] are
      [np.slice i j a], and [a + b], [a - b] follow numpy's broadcasting.
    - Python's [None] is [None] of a [pyopt]; an attribute that may not have
      been assigned yet is an [attr].
    - [print], [exit()] and raised exceptions are made explicit by the
      [Py.outcome] monad.
    - the physics engine and the controller library are collaborators that the
      source only calls: their operations are the fields of [Collaborators]. *)

From Stdlib Require Import Reals Lra String List Bool ZArith Lia.
Import ListNotations.
Local Open Scope R_scope.

(** ** Python values and effects *)

(** [None] or a value. *)
Definition pyopt (A : Type) : Type := option A.

(** An instance attribute: [None] until the first assignment to it. *)
Definition attr (A : Type) : Type := option A.

Module Py.

(** What running a method does: it returns, or the process exits
    ([exit()]), or an exception propagates.  [printed] is what was written
    to standard output on the way, oldest line first.  The state of the
    object is given back with the returned value; what an exception leaves
    behind is not followed. *)
Inductive outcome (A : Type) : Type :=
| Returns (printed : list string) (v : A)
| Exits (printed : list string)
| Raises (printed : list string) (exn : string).

Arguments Returns {A} printed v.
Arguments Exits {A} printed.
Arguments Raises {A} printed exn.

Definition ret {A : Type} (v : A) : outcome A := Returns [] v.

Definition bind {A B : Type} (c : outcome A) (k : A -> outcome B) : outcome B :=
  match c with
  | Returns out v =>
      match k v with
      | Returns out' w => Returns (out ++ out') w
      | Exits out' => Exits (out ++ out')
      | Raises out' e => Raises (out ++ out') e
      end
  | Exits out => Exits out
  | Raises out e => Raises out e
  end.

Definition print (line : string) : outcome unit := Returns [line] tt.
Definition exit {A : Type} : outcome A := Exits [].
Definition raise {A : Type} (exn : string) : outcome A := Raises [] exn.

(** Reading an attribute that was never assigned. *)
Definition getattr {A : Type} (name : string) (a : attr A) : outcome A :=
  match a with
  | Some v => ret v
  | None => raise (String.append "AttributeError: " name)
  end.

(** [a or b], the right operand evaluated only when the left one is false *)
Definition or_ (a b : outcome bool) : outcome bool :=
  bind a (fun x => if x then ret true else b).

Definition returned {A : Type} (c : outcome A) : option A :=
  match c with
  | Returns _ v => Some v
  | _ => None
  end.

End Py.

Declare Scope py_scope.
Delimit Scope py_scope with py.
Notation "x <- c ;; k" := (Py.bind c (fun x => k))
  (at level 61, c at next level, right associativity) : py_scope.
Notation "c ;;; k" := (Py.bind c (fun _ => k))
  (at level 61, right associativity) : py_scope.
Local Open Scope py_scope.

(** ** numpy arrays *)

Module np.

Definition ndarray := list R.

(** [a[i:j]] and [a[i:]]: a slice never fails, it is shorter when the array
    is *)
Definition slice (i j : nat) (a : ndarray) : ndarray :=
  firstn (j - i) (skipn i a).

Definition slice_from (i : nat) (a : ndarray) : ndarray := skipn i a.

(** [a[i]] *)
Definition getitem (a : ndarray) (i : nat) : Py.outcome R :=
  match nth_error a i with
  | Some x => Py.ret x
  | None => Py.raise "IndexError"
  end.

(** Componentwise combination of two arrays of the same length. *)
Fixpoint zip_with (f : R -> R -> R) (a b : ndarray) : ndarray :=
  match a, b with
  | x :: a', y :: b' => f x y :: zip_with f a' b'
  | _, _ => []
  end.

(** An elementwise binary operation on one-dimensional arrays: the lengths
    are equal, or one operand has a single element, which is then combined
    with every element of the other; anything else is a [ValueError]. *)
Definition broadcast (f : R -> R -> R) (a b : ndarray) : Py.outcome ndarray :=
  if Nat.eqb (length a) (length b) then Py.ret (zip_with f a b)
  else match a, b with
       | [x], _ => Py.ret (map (f x) b)
       | _, [y] => Py.ret (map (fun x => f x y) a)
       | _, _ => Py.raise "ValueError: operands could not be broadcast together"
       end.

Definition add : ndarray -> ndarray -> Py.outcome ndarray := broadcast Rplus.
Definition sub : ndarray -> ndarray -> Py.outcome ndarray := broadcast Rminus.

(** [a - b] for two arrays known to have the same length *)
Definition minus : ndarray -> ndarray -> ndarray := zip_with Rminus.

(** [k * a] with a scalar [k] *)
Definition scale (k : R) (a : ndarray) : ndarray := map (fun x => k * x) a.

(** [a / k] with a scalar [k].  A real number cannot stand for
    the [inf] or [nan] that a zero divisor produces: the model stops there
    with numpy's floating-point error. *)
Definition divide (a : ndarray) (k : R) : Py.outcome ndarray :=
  if Req_dec_T k 0 then Py.raise "FloatingPointError: divide by zero"
  else Py.ret (map (fun x => x / k) a).

Definition zeros (n : nat) : ndarray := repeat 0 n.
Definition ones (n : nat) : ndarray := repeat 1 n.

(** [np.repeat(a, n)]: every element repeated [n] times, in order *)
Definition repeat_each (a : ndarray) (n : nat) : ndarray :=
  flat_map (fun x => repeat x n) a.

(** [np.hstack] of one-dimensional arrays *)
Definition hstack (parts : list ndarray) : ndarray := List.concat parts.

(** [a.reshape(n,)] *)
Definition reshape (a : ndarray) (n : nat) : Py.outcome ndarray :=
  if Nat.eqb (length a) n then Py.ret a else Py.raise "ValueError".

Definition dot (a b : ndarray) : R := fold_right Rplus 0 (zip_with Rmult a b).

(** [np.linalg.norm] of a one-dimensional array: [sqrt(a.dot(a))] *)
Definition norm (a : ndarray) : R := sqrt (dot a a).

Definition abs : R -> R := Rabs.

Definition pi : R := PI.

Definition gt (x y : R) : bool := if Rgt_dec x y then true else false.
Definition lt (x y : R) : bool := if Rlt_dec x y then true else false.
Definition ne (x y : R) : bool := if Req_dec_T x y then false else true.

End np.

Abbreviation ndarray := np.ndarray.

(** ** Enumerations *)

Inductive ActionType : Type :=
| RPM | DYN | THR | PID | VEL | TUN | ONE_D_RPM | ONE_D_DYN | ONE_D_PID.

Inductive ObservationType : Type :=
| KIN | RGB.

(** The airframes this file names.  The enumeration itself is declared in
    gym-pybullet-drones; [OtherModel] stands for a member this file does not
    name. *)
Inductive DroneModel : Type :=
| CF2X | CF2P | HB | OtherModel (value : string).

(** The value of a parameter annotated with the enumeration [E]: Python does
    not enforce the annotation, and the dispatches of the source end in an
    [else] branch for values that are no member. *)
Inductive py (E : Type) : Type :=
| member (e : E)
| foreign (repr : string).

Arguments member {E} e.
Arguments foreign {E} repr.

Definition ActionType_eqb (a b : ActionType) : bool :=
  match a, b with
  | RPM, RPM | DYN, DYN | THR, THR | PID, PID | VEL, VEL | TUN, TUN
  | ONE_D_RPM, ONE_D_RPM | ONE_D_DYN, ONE_D_DYN | ONE_D_PID, ONE_D_PID => true
  | _, _ => false
  end.

(** [x == ActionType.M] *)
Definition is_act (x : py ActionType) (m : ActionType) : bool :=
  match x with
  | member a => ActionType_eqb a m
  | foreign _ => false
  end.

(** [x in [ActionType.M1, ...]] *)
Definition act_in (x : py ActionType) (ms : list ActionType) : bool :=
  existsb (is_act x) ms.

Definition is_obs (x : py ObservationType) (m : ObservationType) : bool :=
  match x, m with
  | member KIN, KIN | member RGB, RGB => true
  | _, _ => false
  end.

Definition is_model (x : DroneModel) (m : DroneModel) : bool :=
  match x, m with
  | CF2X, CF2X | CF2P, CF2P | HB, HB => true
  | OtherModel v, OtherModel w => String.eqb v w
  | _, _ => false
  end.

Definition model_in (x : DroneModel) (ms : list DroneModel) : bool :=
  existsb (is_model x) ms.

(** ** The collaborators' data *)

(** A camera frame, [H x W x 4] bytes. *)
Definition Image : Type := list (list (list Z)).

(** Modelled from the spec: the physics engine, which the source only calls
    and the spec describes as creating marker objects and repositioning them.
    The server keeps its bodies in creation order, and the unique id of a
    body is its rank in that order, the first body having id 0. *)
Record Body : Type := {
  urdf : string;
  basePosition : ndarray;
  baseOrientation : ndarray
}.

Module p.

(** [p.loadURDF(file, position, orientation)]: the new world and the id
    of the body created. *)
Definition loadURDF (file : string) (pos orn : ndarray) (world : list Body)
  : list Body * Z :=
  (world ++ [{| urdf := file; basePosition := pos; baseOrientation := orn |}],
   Z.of_nat (length world)).

Fixpoint place (pos orn : ndarray) (n : nat) (world : list Body) {struct world}
  : list Body :=
  match world, n with
  | [], _ => []
  | b :: w, O =>
      {| urdf := urdf b; basePosition := pos; baseOrientation := orn |} :: w
  | b :: w, S n' => b :: place pos orn n' w
  end.

(** [p.resetBasePositionAndOrientation(id, position, orientation)]; an id
    that names no body is an error of the engine. *)
Definition resetBasePositionAndOrientation
    (id : Z) (pos orn : ndarray) (world : list Body) : Py.outcome (list Body) :=
  if ((0 <=? id)%Z && (id <? Z.of_nat (length world))%Z)%bool
  then Py.ret (place pos orn (Z.to_nat id) world)
  else Py.raise "pybullet.error".

End p.

Inductive ControlClass : Type := DSLPIDControl_cls | SimplePIDControl_cls.

(** A controller object: its class, the airframe it was constructed for and
    its own state (gains and accumulated errors), which only the controller
    library reads and writes. *)
Record Controller : Type := {
  control_class : ControlClass;
  DRONE_MODEL : DroneModel;
  memory : list ndarray
}.

(** [DSLPIDControl(drone_model=m)] and [SimplePIDControl(drone_model=m)] *)
Definition DSLPIDControl (drone_model : DroneModel) : Controller :=
  {| control_class := DSLPIDControl_cls; DRONE_MODEL := drone_model; memory := [] |}.

Definition SimplePIDControl (drone_model : DroneModel) : Controller :=
  {| control_class := SimplePIDControl_cls; DRONE_MODEL := drone_model; memory := [] |}.

(** Keyword arguments of [computeControl]; an argument the call leaves out is
    [None]. *)
Record computeControl_args : Type := {
  cc_control_timestep : R;
  cc_cur_pos : ndarray;
  cc_cur_quat : ndarray;
  cc_cur_vel : ndarray;
  cc_cur_ang_vel : ndarray;
  cc_target_pos : ndarray;
  cc_target_rpy : option ndarray;
  cc_target_vel : option ndarray
}.

Record attitudeControl_args : Type := {
  ac_control_timestep : R;
  ac_thrust : ndarray;
  ac_cur_quat : ndarray;
  ac_target_euler : ndarray;
  ac_target_rpy_rates : ndarray
}.

Record PIDCoefficients : Type := {
  p_coeff_pos : ndarray; i_coeff_pos : ndarray; d_coeff_pos : ndarray;
  p_coeff_att : ndarray; i_coeff_att : ndarray; d_coeff_att : ndarray
}.

Record nnlsRPM_args : Type := {
  nn_thrust : R; nn_x_torque : R; nn_y_torque : R; nn_z_torque : R;
  nn_counter : Z;
  nn_max_thrust : R; nn_max_xy_torque : R; nn_max_z_torque : R;
  nn_a : list ndarray; nn_inv_a : list ndarray; nn_b_coeff : ndarray;
  nn_gui : bool
}.

Inductive Physics : Type := PYB | OtherPhysics (value : string).

(** Keyword arguments of [BaseAviary.__init__]. *)
Record BaseAviary_args : Type := {
  ba_drone_model : DroneModel;
  ba_num_drones : Z;
  ba_initial_xyzs : pyopt (list ndarray);
  ba_initial_rpys : pyopt (list ndarray);
  ba_physics : Physics;
  ba_freq : Z;
  ba_aggregate_phy_steps : Z;
  ba_gui : bool;
  ba_record : bool;
  ba_obstacles : bool;
  ba_user_debug_gui : bool;
  ba_vision_attributes : bool;
  ba_dynamics_attributes : bool
}.

(** What [BaseAviary] holds for this layer: the constants its constructor
    derives and the state of the simulation.  [state_vector] is what
    [_getDroneStateVector(0)] returns at the current tick: position [0:3],
    quaternion [3:7], roll-pitch-yaw [7:10], velocity [10:13], angular
    velocity [13:16] and the last motor RPMs [16:20]. *)
Record BaseAviary : Type := {
  INIT_XYZS : list ndarray;
  HOVER_RPM : R;
  GRAVITY : R;
  MAX_SPEED_KMH : R;
  MAX_THRUST : R;
  MAX_XY_TORQUE : R;
  MAX_Z_TORQUE : R;
  A : list ndarray;
  INV_A : list ndarray;
  B_COEFF : ndarray;
  GUI : bool;
  RECORD : bool;
  AGGR_PHY_STEPS : Z;
  TIMESTEP : R;
  CLIENT : Z;
  IMG_RES : attr (Z * Z);
  IMG_CAPTURE_FREQ : attr Z;
  ONBOARD_IMG_PATH : attr string;
  step_counter : Z;
  rgb : attr Image;
  dep : attr Image;
  seg : attr Image;
  exported : list (string * Z * Image);
  state_vector : ndarray;
  world : list Body
}.

Definition set_world (w : list Body) (b : BaseAviary) : BaseAviary :=
  {| INIT_XYZS := INIT_XYZS b; HOVER_RPM := HOVER_RPM b; GRAVITY := GRAVITY b;
     MAX_SPEED_KMH := MAX_SPEED_KMH b; MAX_THRUST := MAX_THRUST b;
     MAX_XY_TORQUE := MAX_XY_TORQUE b; MAX_Z_TORQUE := MAX_Z_TORQUE b;
     A := A b; INV_A := INV_A b; B_COEFF := B_COEFF b; GUI := GUI b;
     RECORD := RECORD b; AGGR_PHY_STEPS := AGGR_PHY_STEPS b;
     TIMESTEP := TIMESTEP b; CLIENT := CLIENT b; IMG_RES := IMG_RES b;
     IMG_CAPTURE_FREQ := IMG_CAPTURE_FREQ b;
     ONBOARD_IMG_PATH := ONBOARD_IMG_PATH b; step_counter := step_counter b;
     rgb := rgb b; dep := dep b; seg := seg b; exported := exported b;
     state_vector := state_vector b; world := w |}.

Definition set_images (r d s : Image) (b : BaseAviary) : BaseAviary :=
  {| INIT_XYZS := INIT_XYZS b; HOVER_RPM := HOVER_RPM b; GRAVITY := GRAVITY b;
     MAX_SPEED_KMH := MAX_SPEED_KMH b; MAX_THRUST := MAX_THRUST b;
     MAX_XY_TORQUE := MAX_XY_TORQUE b; MAX_Z_TORQUE := MAX_Z_TORQUE b;
     A := A b; INV_A := INV_A b; B_COEFF := B_COEFF b; GUI := GUI b;
     RECORD := RECORD b; AGGR_PHY_STEPS := AGGR_PHY_STEPS b;
     TIMESTEP := TIMESTEP b; CLIENT := CLIENT b; IMG_RES := IMG_RES b;
     IMG_CAPTURE_FREQ := IMG_CAPTURE_FREQ b;
     ONBOARD_IMG_PATH := ONBOARD_IMG_PATH b; step_counter := step_counter b;
     rgb := Some r; dep := Some d; seg := Some s; exported := exported b;
     state_vector := state_vector b; world := world b |}.

Definition add_export (path : string) (frame : Z) (img : Image) (b : BaseAviary)
  : BaseAviary :=
  {| INIT_XYZS := INIT_XYZS b; HOVER_RPM := HOVER_RPM b; GRAVITY := GRAVITY b;
     MAX_SPEED_KMH := MAX_SPEED_KMH b; MAX_THRUST := MAX_THRUST b;
     MAX_XY_TORQUE := MAX_XY_TORQUE b; MAX_Z_TORQUE := MAX_Z_TORQUE b;
     A := A b; INV_A := INV_A b; B_COEFF := B_COEFF b; GUI := GUI b;
     RECORD := RECORD b; AGGR_PHY_STEPS := AGGR_PHY_STEPS b;
     TIMESTEP := TIMESTEP b; CLIENT := CLIENT b; IMG_RES := IMG_RES b;
     IMG_CAPTURE_FREQ := IMG_CAPTURE_FREQ b;
     ONBOARD_IMG_PATH := ONBOARD_IMG_PATH b; step_counter := step_counter b;
     rgb := rgb b; dep := dep b; seg := seg b;
     exported := exported b ++ [(path, frame, img)];
     state_vector := state_vector b; world := world b |}.

(** The six reference gain groups assigned for [ActionType.TUN]. *)
Record TunedGains : Type := {
  TUNED_P_POS : ndarray; TUNED_I_POS : ndarray; TUNED_D_POS : ndarray;
  TUNED_P_ATT : ndarray; TUNED_I_ATT : ndarray; TUNED_D_ATT : ndarray
}.

(** ** The environment object *)

Record MyAviary : Type := {
  base : BaseAviary;
  OBS_TYPE : py ObservationType;
  ACT_TYPE : py ActionType;
  EPISODE_LEN_SEC : Z;
  target_ID : pyopt Z;
  prev_action : pyopt ndarray;
  prev_pos_err : pyopt ndarray;
  ctrl : attr Controller;
  TUNED : attr TunedGains;
  SPEED_LIMIT : attr R;
  target_position : ndarray;
  prev_ : attr (pyopt ndarray)
}.

Definition set_base (b : BaseAviary) (self : MyAviary) : MyAviary :=
  {| base := b; OBS_TYPE := OBS_TYPE self; ACT_TYPE := ACT_TYPE self;
     EPISODE_LEN_SEC := EPISODE_LEN_SEC self; target_ID := target_ID self;
     prev_action := prev_action self; prev_pos_err := prev_pos_err self;
     ctrl := ctrl self; TUNED := TUNED self; SPEED_LIMIT := SPEED_LIMIT self;
     target_position := target_position self; prev_ := prev_ self |}.

Definition set_target_ID (id : pyopt Z) (self : MyAviary) : MyAviary :=
  {| base := base self; OBS_TYPE := OBS_TYPE self; ACT_TYPE := ACT_TYPE self;
     EPISODE_LEN_SEC := EPISODE_LEN_SEC self; target_ID := id;
     prev_action := prev_action self; prev_pos_err := prev_pos_err self;
     ctrl := ctrl self; TUNED := TUNED self; SPEED_LIMIT := SPEED_LIMIT self;
     target_position := target_position self; prev_ := prev_ self |}.

Definition set_prev_action (a : pyopt ndarray) (self : MyAviary) : MyAviary :=
  {| base := base self; OBS_TYPE := OBS_TYPE self; ACT_TYPE := ACT_TYPE self;
     EPISODE_LEN_SEC := EPISODE_LEN_SEC self; target_ID := target_ID self;
     prev_action := a; prev_pos_err := prev_pos_err self;
     ctrl := ctrl self; TUNED := TUNED self; SPEED_LIMIT := SPEED_LIMIT self;
     target_position := target_position self; prev_ := prev_ self |}.

Definition set_ctrl (c : Controller) (self : MyAviary) : MyAviary :=
  {| base := base self; OBS_TYPE := OBS_TYPE self; ACT_TYPE := ACT_TYPE self;
     EPISODE_LEN_SEC := EPISODE_LEN_SEC self; target_ID := target_ID self;
     prev_action := prev_action self; prev_pos_err := prev_pos_err self;
     ctrl := Some c; TUNED := TUNED self; SPEED_LIMIT := SPEED_LIMIT self;
     target_position := target_position self; prev_ := prev_ self |}.

Definition set_target_position (t : ndarray) (self : MyAviary) : MyAviary :=
  {| base := base self; OBS_TYPE := OBS_TYPE self; ACT_TYPE := ACT_TYPE self;
     EPISODE_LEN_SEC := EPISODE_LEN_SEC self; target_ID := target_ID self;
     prev_action := prev_action self; prev_pos_err := prev_pos_err self;
     ctrl := ctrl self; TUNED := TUNED self; SPEED_LIMIT := SPEED_LIMIT self;
     target_position := t; prev_ := prev_ self |}.

Definition set_prev_ (v : pyopt ndarray) (self : MyAviary) : MyAviary :=
  {| base := base self; OBS_TYPE := OBS_TYPE self; ACT_TYPE := ACT_TYPE self;
     EPISODE_LEN_SEC := EPISODE_LEN_SEC self; target_ID := target_ID self;
     prev_action := prev_action self; prev_pos_err := prev_pos_err self;
     ctrl := ctrl self; TUNED := TUNED self; SPEED_LIMIT := SPEED_LIMIT self;
     target_position := target_position self; prev_ := Some v |}.

(** [self._getDroneStateVector(0)] *)
Definition _getDroneStateVector (self : MyAviary) (nth_drone : nat) : ndarray :=
  state_vector (base self).

(** What the concrete subclass adds to the class: the source looks
    [_trajectoryTrackingRPMs] up by name on [self.__class__]. *)
Record Subclass : Type := {
  _trajectoryTrackingRPMs : attr (MyAviary -> MyAviary * ndarray)
}.

(** Operations of the physics engine and of the controller library.
    [BaseAviary_init] is the constructor of the base class, which is free to
    print, exit or raise.  [linalg_norm] is [np.linalg.norm] as numpy
    computes it in float64: where the source tests a norm against zero and
    divides by it, the branch taken and the divisor are the computed value,
    which can be 0.0 for entries that are tiny but not zero; the model takes
    that value from numpy and assumes nothing about it. *)
Record Collaborators : Type := {
  BaseAviary_init : BaseAviary_args -> Py.outcome BaseAviary;
  linalg_norm : ndarray -> R;
  getQuaternionFromEuler : ndarray -> ndarray;
  getMatrixFromQuaternion : ndarray -> ndarray;
  getMatrixFromQuaternion_shape :
    forall q, length (getMatrixFromQuaternion q) = 9%nat;
  _getDroneImages : BaseAviary -> Image * Image * Image;
  computeControl :
    Controller -> computeControl_args -> (ndarray * ndarray * R) * Controller;
  _dslPIDAttitudeControl :
    Controller -> attitudeControl_args -> Py.outcome (ndarray * Controller);
  setPIDCoefficients : Controller -> PIDCoefficients -> Controller;
  nnlsRPM : nnlsRPM_args -> ndarray
}.

(** ** gym spaces *)

Module spaces.

Inductive bound : Type := scalar (x : R) | array (a : ndarray).

Record Box : Type := {
  low : bound;
  high : bound;
  shape : list Z;
  dtype : string
}.

(** [spaces.Box(low, high, shape, dtype)]: without [shape], the shape is
    that of [low]. *)
Definition Box_ (low high : bound) (shape : option (list Z)) (dtype : string)
  : Box :=
  {| low := low; high := high;
     shape := match shape, low with
              | Some s, _ => s
              | None, array a => [Z.of_nat (length a)]
              | None, scalar _ => []
              end;
     dtype := dtype |}.

End spaces.

(** ** The methods of [MyAviary] *)

Record init_args : Type := {
  drone_model : DroneModel;
  initial_xyzs : pyopt (list ndarray);
  initial_rpys : pyopt (list ndarray);
  physics : Physics;
  freq : Z;
  aggregate_phy_steps : Z;
  gui : bool;
  record : bool;
  obs : py ObservationType;
  act : py ActionType
}.

Definition cf2_gains : TunedGains :=
  {| TUNED_P_POS := [0.4; 0.4; 1.25];
     TUNED_I_POS := [0.05; 0.05; 0.05];
     TUNED_D_POS := [0.2; 0.2; 0.5];
     TUNED_P_ATT := [70000; 70000; 60000];
     TUNED_I_ATT := [0; 0; 500];
     TUNED_D_ATT := [20000; 20000; 12000] |}.

Definition hb_gains : TunedGains :=
  {| TUNED_P_POS := [0.1; 0.1; 0.2];
     TUNED_I_POS := [0.0001; 0.0001; 0.0001];
     TUNED_D_POS := [0.3; 0.3; 0.4];
     TUNED_P_ATT := [0.3; 0.3; 0.05];
     TUNED_I_ATT := [0.0001; 0.0001; 0.0001];
     TUNED_D_ATT := [0.3; 0.3; 0.5] |}.

Definition no_controller_message : string :=
  "[ERROR] in BaseSingleAgentAviary.__init()__, no controller is available for the specified drone_model".

Definition no_tracking_message : string :=
  "[ERROR] in BaseSingleAgentAviary.__init__(), ActionType.TUN requires an implementation of _trajectoryTrackingRPMs in the instantiated subclass".

(** [__init__], the block "Create integrated controllers": the values of
    [self.ctrl] and of the [self.TUNED_*] group after it.  (The block also
    sets an environment variable of the process, which nothing here reads.) *)
Definition create_integrated_controllers
    (drone_model : DroneModel) (act : py ActionType)
  : Py.outcome (attr Controller * attr TunedGains) :=
  if act_in act [PID; VEL; TUN; THR; ONE_D_PID] then
    if model_in drone_model [CF2X; CF2P] then
      Py.ret (Some (DSLPIDControl CF2X),
              if is_act act TUN then Some cf2_gains else None)
    else if is_model drone_model HB then
      Py.ret (Some (SimplePIDControl HB),
              if is_act act TUN then Some hb_gains else None)
    else
      Py.print no_controller_message ;;;
      Py.ret (None, None)
  else Py.ret (None, None).

(** [hasattr(self.__class__, '_trajectoryTrackingRPMs') and callable(...)] *)
Definition has_trajectoryTrackingRPMs (cls : Subclass) : bool :=
  match _trajectoryTrackingRPMs cls with
  | Some _ => true
  | None => false
  end.

(** The keyword arguments of the call [super().__init__(...)]. *)
Definition super_args (a : init_args) : BaseAviary_args :=
  let vision_attributes := is_obs (obs a) RGB in
  let dynamics_attributes := act_in (act a) [DYN; ONE_D_DYN] in
  {| ba_drone_model := drone_model a;
     ba_num_drones := 1;
     ba_initial_xyzs := initial_xyzs a;
     ba_initial_rpys := initial_rpys a;
     ba_physics := physics a;
     ba_freq := freq a;
     ba_aggregate_phy_steps := aggregate_phy_steps a;
     ba_gui := gui a;
     ba_record := record a;
     ba_obstacles := true;
     ba_user_debug_gui := false;
     ba_vision_attributes := vision_attributes;
     ba_dynamics_attributes := dynamics_attributes |}.

Definition __init__ (K : Collaborators) (cls : Subclass) (a : init_args)
  : Py.outcome MyAviary :=
  cg <- create_integrated_controllers (drone_model a) (act a) ;;
  b <- BaseAviary_init K (super_args a) ;;
  let speed_limit :=
    if is_act (act a) VEL
    then Some (0.03 * MAX_SPEED_KMH b * (1000 / 3600))
    else None in
  (if (is_act (act a) TUN && negb (has_trajectoryTrackingRPMs cls))%bool
   then Py.print no_tracking_message ;;; Py.exit
   else Py.ret tt) ;;;
  init_xyz <- match nth_error (INIT_XYZS b) 0 with
              | Some row => Py.ret row
              | None => Py.raise "IndexError"
              end ;;
  Py.ret {| base := b;
            OBS_TYPE := obs a;
            ACT_TYPE := act a;
            EPISODE_LEN_SEC := 5;
            target_ID := None;
            prev_action := None;
            prev_pos_err := None;
            ctrl := fst cg;
            TUNED := snd cg;
            SPEED_LIMIT := speed_limit;
            target_position := init_xyz;
            prev_ := None |}.

Definition _addObstacles (K : Collaborators) (self : MyAviary) : MyAviary :=
  if is_obs (OBS_TYPE self) RGB then
    let q := getQuaternionFromEuler K [0; 0; 0] in
    let w := world (base self) in
    let w := fst (p.loadURDF "block.urdf" [1; 0; 0.1] q w) in
    let w := fst (p.loadURDF "cube_small.urdf" [0; 1; 0.1] q w) in
    let w := fst (p.loadURDF "duck_vhacd.urdf" [-1; 0; 0.1] q w) in
    let w := fst (p.loadURDF "teddy_vhacd.urdf" [0; -1; 0.1] q w) in
    set_base (set_world w (base self)) self
  else self.

(** [not self.target_ID]: [None] and the integer 0 are false values. *)
Definition not_ (x : pyopt Z) : bool :=
  match x with
  | None => true
  | Some id => (id =? 0)%Z
  end.

Definition _addTarget (K : Collaborators) (self : MyAviary)
    (position : ndarray) (visual : bool) : Py.outcome MyAviary :=
  let self := set_target_position position self in
  let self := set_prev_ None self in
  if visual then
    if not_ (target_ID self) then
      let created :=
        p.loadURDF "cube_small.urdf" position
                   (getQuaternionFromEuler K [0; 0; 0]) (world (base self)) in
      Py.ret (set_target_ID (Some (snd created))
                (set_base (set_world (fst created) (base self)) self))
    else
      w <- p.resetBasePositionAndOrientation
             (match target_ID self with Some id => id | None => 0%Z end)
             position (getQuaternionFromEuler K [0; 0; 0])
             (world (base self)) ;;
      Py.ret (set_base (set_world w (base self)) self)
  else Py.ret self.

Definition _actionSpace (self : MyAviary) : Py.outcome spaces.Box :=
  size <- (if is_act (ACT_TYPE self) TUN then Py.ret 6%nat
           else if act_in (ACT_TYPE self) [RPM; DYN; VEL] then Py.ret 4%nat
           else if is_act (ACT_TYPE self) PID then Py.ret 3%nat
           else if act_in (ACT_TYPE self) [ONE_D_RPM; ONE_D_DYN; ONE_D_PID]
                then Py.ret 1%nat
           else if is_act (ACT_TYPE self) THR then Py.ret 4%nat
           else Py.print "[ERROR] in BaseSingleAgentAviary._actionSpace()" ;;;
                Py.exit) ;;
  Py.ret (spaces.Box_ (spaces.array (np.scale (-1) (np.ones size)))
                      (spaces.array (np.ones size))
                      None "float32").

(** [self.AGGR_PHY_STEPS*self.TIMESTEP] *)
Definition control_timestep (self : MyAviary) : R :=
  IZR (AGGR_PHY_STEPS (base self)) * TIMESTEP (base self).

(** [ActionType.VEL]: the direction of the commanded velocity.  The norm
    tested and the norm divided by are the values numpy computes. *)
Definition v_unit_vector (K : Collaborators) (action : ndarray)
  : Py.outcome ndarray :=
  if np.ne (linalg_norm K (np.slice 0 3 action)) 0
  then np.divide (np.slice 0 3 action) (linalg_norm K (np.slice 0 3 action))
  else Py.ret (np.zeros 3).

Definition nnls_for (self : MyAviary) (thrust x_torque y_torque z_torque : R)
  : nnlsRPM_args :=
  {| nn_thrust := thrust;
     nn_x_torque := x_torque;
     nn_y_torque := y_torque;
     nn_z_torque := z_torque;
     nn_counter := step_counter (base self);
     nn_max_thrust := MAX_THRUST (base self);
     nn_max_xy_torque := MAX_XY_TORQUE (base self);
     nn_max_z_torque := MAX_Z_TORQUE (base self);
     nn_a := A (base self);
     nn_inv_a := INV_A (base self);
     nn_b_coeff := B_COEFF (base self);
     nn_gui := GUI (base self) |}.

(** The call [self.ctrl.computeControl(...)] and the statement
    [rpm, _, _ = ...; return rpm] around it. *)
Definition return_computeControl (K : Collaborators) (self : MyAviary)
    (c : Controller) (args : computeControl_args)
  : Py.outcome (MyAviary * pyopt ndarray) :=
  let r := computeControl K c args in
  Py.ret (set_ctrl (snd r) self, Some (fst (fst (fst r)))).

Definition _preprocessAction (K : Collaborators) (cls : Subclass)
    (self : MyAviary) (action : ndarray)
  : Py.outcome (MyAviary * pyopt ndarray) :=
  if is_act (ACT_TYPE self) TUN then
    c <- Py.getattr "ctrl" (ctrl self) ;;
    a0 <- np.getitem action 0 ;;
    g <- Py.getattr "TUNED_P_POS" (TUNED self) ;;
    a1 <- np.getitem action 1 ;;
    a2 <- np.getitem action 2 ;;
    a3 <- np.getitem action 3 ;;
    a4 <- np.getitem action 4 ;;
    a5 <- np.getitem action 5 ;;
    let c' := setPIDCoefficients K c
                {| p_coeff_pos := np.scale (a0 + 1) (TUNED_P_POS g);
                   i_coeff_pos := np.scale (a1 + 1) (TUNED_I_POS g);
                   d_coeff_pos := np.scale (a2 + 1) (TUNED_D_POS g);
                   p_coeff_att := np.scale (a3 + 1) (TUNED_P_ATT g);
                   i_coeff_att := np.scale (a4 + 1) (TUNED_I_ATT g);
                   d_coeff_att := np.scale (a5 + 1) (TUNED_D_ATT g) |} in
    track <- Py.getattr "_trajectoryTrackingRPMs" (_trajectoryTrackingRPMs cls) ;;
    let r := track (set_ctrl c' self) in
    Py.ret (fst r, Some (snd r))
  else if is_act (ACT_TYPE self) RPM then
    Py.ret (self,
            Some (map (fun a => HOVER_RPM (base self) * (1 + 0.05 * a)) action))
  else if is_act (ACT_TYPE self) THR then
    let state := _getDroneStateVector self 0 in
    c <- Py.getattr "ctrl" (ctrl self) ;;
    r <- _dslPIDAttitudeControl K c
           {| ac_control_timestep := control_timestep self;
              ac_thrust := map (fun a => GRAVITY (base self) * (a + 1)) action;
              ac_cur_quat := np.slice 3 7 state;
              ac_target_euler := np.slice 7 10 state;
              ac_target_rpy_rates := np.slice 13 16 state |} ;;
    Py.ret (set_ctrl (snd r) self, Some (fst r))
  else if is_act (ACT_TYPE self) DYN then
    a0 <- np.getitem action 0 ;;
    a1 <- np.getitem action 1 ;;
    a2 <- np.getitem action 2 ;;
    a3 <- np.getitem action 3 ;;
    Py.ret (self,
            Some (nnlsRPM K
                    (nnls_for self
                       (GRAVITY (base self) * (a0 + 1))
                       (0.05 * MAX_XY_TORQUE (base self) * a1)
                       (0.05 * MAX_XY_TORQUE (base self) * a2)
                       (0.05 * MAX_Z_TORQUE (base self) * a3))))
  else if is_act (ACT_TYPE self) PID then
    let state := _getDroneStateVector self 0 in
    c <- Py.getattr "ctrl" (ctrl self) ;;
    target <- np.add (np.slice 0 3 state) (np.scale 0.1 action) ;;
    return_computeControl K self c
      {| cc_control_timestep := control_timestep self;
         cc_cur_pos := np.slice 0 3 state;
         cc_cur_quat := np.slice 3 7 state;
         cc_cur_vel := np.slice 10 13 state;
         cc_cur_ang_vel := np.slice 13 16 state;
         cc_target_pos := target;
         cc_target_rpy := None;
         cc_target_vel := None |}
  else if is_act (ACT_TYPE self) VEL then
    let state := _getDroneStateVector self 0 in
    v <- v_unit_vector K action ;;
    c <- Py.getattr "ctrl" (ctrl self) ;;
    yaw <- np.getitem state 9 ;;
    limit <- Py.getattr "SPEED_LIMIT" (SPEED_LIMIT self) ;;
    a3 <- np.getitem action 3 ;;
    return_computeControl K self c
      {| cc_control_timestep := control_timestep self;
         cc_cur_pos := np.slice 0 3 state;
         cc_cur_quat := np.slice 3 7 state;
         cc_cur_vel := np.slice 10 13 state;
         cc_cur_ang_vel := np.slice 13 16 state;
         cc_target_pos := np.slice 0 3 state;
         cc_target_rpy := Some [0; 0; yaw];
         cc_target_vel := Some (np.scale (limit * np.abs a3) v) |}
  else if is_act (ACT_TYPE self) ONE_D_RPM then
    Py.ret (self,
            Some (np.repeat_each
                    (map (fun a => HOVER_RPM (base self) * (1 + 0.05 * a)) action)
                    4))
  else if is_act (ACT_TYPE self) ONE_D_DYN then
    a0 <- np.getitem action 0 ;;
    Py.ret (self,
            Some (nnlsRPM K
                    (nnls_for self (GRAVITY (base self) * (1 + 0.05 * a0)) 0 0 0)))
  else if is_act (ACT_TYPE self) ONE_D_PID then
    let state := _getDroneStateVector self 0 in
    c <- Py.getattr "ctrl" (ctrl self) ;;
    a0 <- np.getitem action 0 ;;
    target <- np.add (np.slice 0 3 state) (np.scale 0.1 [0; 0; a0]) ;;
    return_computeControl K self c
      {| cc_control_timestep := control_timestep self;
         cc_cur_pos := np.slice 0 3 state;
         cc_cur_quat := np.slice 3 7 state;
         cc_cur_vel := np.slice 10 13 state;
         cc_cur_ang_vel := np.slice 13 16 state;
         cc_target_pos := target;
         cc_target_rpy := None;
         cc_target_vel := None |}
  else
    Py.print "[ERROR] in BaseSingleAgentAviary._preprocessAction()" ;;;
    Py.ret (self, None).

Definition _observationSpace (self : MyAviary) : Py.outcome (pyopt spaces.Box) :=
  if is_obs (OBS_TYPE self) RGB then
    res <- Py.getattr "IMG_RES" (IMG_RES (base self)) ;;
    Py.ret (Some (spaces.Box_ (spaces.scalar 0) (spaces.scalar 255)
                              (Some [snd res; fst res; 4%Z]) "uint8"))
  else if is_obs (OBS_TYPE self) KIN then
    Py.ret (Some (spaces.Box_
                    (spaces.array [-1; -1; 0; -1; -1; -1; -1; -1; -1; -1; -1; -1])
                    (spaces.array [1; 1; 1; 1; 1; 1; 1; 1; 1; 1; 1; 1])
                    None "float32"))
  else
    Py.print "[ERROR] in BaseSingleAgentAviary._observationSpace()" ;;;
    Py.ret None.

Inductive Observation : Type :=
| frame (img : Image)
| vector (v : ndarray).

Definition _computeObs (K : Collaborators) (self : MyAviary)
  : Py.outcome (MyAviary * pyopt Observation) :=
  if is_obs (OBS_TYPE self) RGB then
    every <- Py.getattr "IMG_CAPTURE_FREQ" (IMG_CAPTURE_FREQ (base self)) ;;
    (if (every =? 0)%Z then Py.raise "ZeroDivisionError" else Py.ret tt) ;;;
    self <- (if (step_counter (base self) mod every =? 0)%Z then
               Py.getattr "rgb" (rgb (base self)) ;;;
               let imgs := _getDroneImages K (base self) in
               let b := set_images (fst (fst imgs)) (snd (fst imgs)) (snd imgs)
                                   (base self) in
               if RECORD b then
                 path <- Py.getattr "ONBOARD_IMG_PATH" (ONBOARD_IMG_PATH b) ;;
                 Py.ret (set_base
                           (add_export path (step_counter b / every)%Z
                                       (fst (fst imgs)) b)
                           self)
               else Py.ret (set_base b self)
             else Py.ret self) ;;
    img <- Py.getattr "rgb" (rgb (base self)) ;;
    Py.ret (self, Some (frame img))
  else if is_obs (OBS_TYPE self) KIN then
    let obs := _getDroneStateVector self 0 in
    diff <- np.sub (target_position self) (np.slice 0 3 obs) ;;
    let Rotation_matrix :=
      getMatrixFromQuaternion K (getQuaternionFromEuler K (np.slice 7 10 obs)) in
    v <- np.reshape
           (np.hstack [diff; np.slice 10 13 obs; np.slice 13 16 obs;
                       Rotation_matrix])
           18 ;;
    Py.ret (self, Some (vector v))
  else
    Py.print "[ERROR] in BaseSingleAgentAviary._computeObs()" ;;;
    Py.ret (self, None).

Definition _invProcessAction (self : MyAviary) (action : ndarray)
  : Py.outcome ndarray :=
  quot <- np.divide action (HOVER_RPM (base self)) ;;
  Py.ret (map (fun q => (q - 1.0) * 20.0) quot).

Definition _computeReward (self : MyAviary) : Py.outcome (MyAviary * R) :=
  let state := _getDroneStateVector self 0 in
  let pos := np.slice 0 3 state in
  let target_position := target_position self in
  let att := np.slice 7 10 state in
  let vel := np.slice 10 13 state in
  let ang_vel := np.slice 13 16 state in
  action <- _invProcessAction self (np.slice_from 16 state) ;;
  da <- match prev_action self with
        | Some prev =>
            change <- np.sub action prev ;;
            np.divide change (IZR (AGGR_PHY_STEPS (base self)))
        | None =>
            np.divide action (IZR (AGGR_PHY_STEPS (base self)))
        end ;;
  let self := set_prev_action (Some action) self in
  let da := np.norm da in
  error <- np.sub pos target_position ;;
  let pos_err := np.norm error in
  let att_err := np.norm att in
  let vel_err := np.norm vel in
  let ang_vel_err := np.norm ang_vel in
  let act_err := np.norm action in
  let reward :=
    2.0 - 1.0 * pos_err - 0.04 * vel_err - 0.02 * att_err - 0.02 * act_err
    - 0.001 * da in
  Py.ret (self, reward).

Definition _computeDone (self : MyAviary) : Py.outcome bool :=
  let state := _getDroneStateVector self 0 in
  let curr_pos := np.slice 0 3 state in
  let curr_att := np.slice 7 10 state in
  let beyond (a : ndarray) (i : nat) (limit : R) : Py.outcome bool :=
    x <- np.getitem a i ;; Py.ret (np.gt (np.abs x) limit) in
  let below (a : ndarray) (i : nat) (limit : R) : Py.outcome bool :=
    x <- np.getitem a i ;; Py.ret (np.lt (np.abs x) limit) in
  out_of_box <- Py.or_ (beyond curr_pos 0%nat 3)
                  (Py.or_ (beyond curr_pos 1%nat 3)
                     (Py.or_ (beyond curr_pos 2%nat 3)
                        (below curr_pos 2%nat 0.02))) ;;
  if out_of_box then Py.ret true
  else
    tilted <- Py.or_ (beyond curr_att 0%nat (np.pi / 2.0))
                (Py.or_ (beyond curr_att 1%nat (np.pi / 2.0))
                   (beyond curr_att 2%nat (np.pi / 2.0))) ;;
    if tilted then Py.ret true else Py.ret false.

Definition _computeInfo (self : MyAviary) : list (string * Z) :=
  [("answer"%string, 42%Z)].

(** * Reference definitions

    The formulas of the specification, to compare the code with, and the
    environments that the examples below run. *)

(** The termination condition in the words of the specification, on a state
    vector, with the altitude test on the magnitude of the altitude as the
    source has it. *)
Definition out_of_bounds (s : ndarray) : Prop :=
  Rabs (nth 0 s 0) > 3 \/ Rabs (nth 1 s 0) > 3 \/ Rabs (nth 2 s 0) > 3 \/
  Rabs (nth 2 s 0) < 0.02 \/
  Rabs (nth 7 s 0) > PI / 2 \/ Rabs (nth 8 s 0) > PI / 2 \/
  Rabs (nth 9 s 0) > PI / 2.

(** The hover RPM of a CF2X. *)
Definition hover_rpm_cf2x : R := 14468.429.

(** A level drone at rest at [x,y,z], all motors at [rpm]. *)
Definition example_state (x y z : R) (rpm : R) : ndarray :=
  [x; y; z;  0; 0; 0; 1;  0; 0; 0;  0; 0; 0;  0; 0; 0;  rpm; rpm; rpm; rpm].

(** What [BaseAviary] holds for a CF2X stepped once per call: the ground
    plane is body 0 of the world and the drone body 1. *)
Definition example_base (s : ndarray) : BaseAviary :=
  {| INIT_XYZS := [[0; 0; 1]];
     HOVER_RPM := hover_rpm_cf2x;
     GRAVITY := 0.2646;
     MAX_SPEED_KMH := 30;
     MAX_THRUST := 0.5954;
     MAX_XY_TORQUE := 0.0059;
     MAX_Z_TORQUE := 0.0074;
     A := []; INV_A := []; B_COEFF := [];
     GUI := false;
     RECORD := false;
     AGGR_PHY_STEPS := 1;
     TIMESTEP := 1 / 240;
     CLIENT := 0;
     IMG_RES := None; IMG_CAPTURE_FREQ := None; ONBOARD_IMG_PATH := None;
     step_counter := 0;
     rgb := None; dep := None; seg := None;
     exported := [];
     state_vector := s;
     world := [ {| urdf := "plane.urdf"; basePosition := [0; 0; 0];
                   baseOrientation := [0; 0; 0; 1] |};
                {| urdf := "cf2x.urdf"; basePosition := [0; 0; 1];
                   baseOrientation := [0; 0; 0; 1] |} ] |}.

(** A kinematic environment just constructed around [example_base], with
    the target at [0,0,1]. *)
Definition example_env (a : ActionType) (c : attr Controller) (s : ndarray)
  : MyAviary :=
  {| base := example_base s;
     OBS_TYPE := member KIN;
     ACT_TYPE := member a;
     EPISODE_LEN_SEC := 5;
     target_ID := None;
     prev_action := None;
     prev_pos_err := None;
     ctrl := c;
     TUNED := None;
     SPEED_LIMIT := if ActionType_eqb a VEL then Some (0.03 * 30 * (1000 / 3600))
                    else None;
     target_position := [0; 0; 1];
     prev_ := None |}.

(** The reward as the specification words it. *)
Definition spec_action_phys (hover_rpm : R) (last_motor_rpm : ndarray) : ndarray :=
  map (fun rpm => (rpm / hover_rpm - 1) * 20) last_motor_rpm.

Definition spec_da (steps_per_call : R) (action_phys previous_action_phys : ndarray)
  : ndarray :=
  map (fun d => d / steps_per_call) (np.minus action_phys previous_action_phys).

Definition spec_reward (pos target vel euler action_phys da : ndarray) : R :=
  2.0 - 1.0 * np.norm (np.minus pos target) - 0.04 * np.norm vel
  - 0.02 * np.norm euler - 0.02 * np.norm action_phys - 0.001 * np.norm da.

(** The two branches of the source for the derivative: against the stored
    action when there is one, and of the action alone when there is none. *)
Definition code_da (self : MyAviary) (action_phys : ndarray) : ndarray :=
  match prev_action self with
  | Some prev => spec_da (IZR (AGGR_PHY_STEPS (base self))) action_phys prev
  | None => map (fun d => d / IZR (AGGR_PHY_STEPS (base self))) action_phys
  end.

(** The shapes [_computeReward] relies on: a state vector of 20 entries, a
    target of 3 and, when an action is stored, 4 entries of it. *)
Definition reward_shapes (self : MyAviary) : Prop :=
  length (state_vector (base self)) = 20%nat
  /\ length (target_position self) = 3%nat
  /\ match prev_action self with
     | Some prev => length prev = 4%nat
     | None => True
     end.

(** The drone hovers at its target and the action stored by the call before
    was the hover action. *)
Definition steady_hover : MyAviary :=
  set_prev_action (Some (np.zeros 4))
    (example_env RPM None (example_state 0 0 1 hover_rpm_cf2x)).

(** The drone hovers at its target, and the call before stored the action of
    motors running 5% above hover RPM. *)
Definition hover_after_climb : MyAviary :=
  set_prev_action (Some [1; 1; 1; 1])
    (example_env RPM None (example_state 0 0 1 hover_rpm_cf2x)).

(** Just constructed, the drone at its target, the motors 5% above hover RPM. *)
Definition first_tick_climbing : MyAviary :=
  example_env RPM None (example_state 0 0 1 (1.05 * hover_rpm_cf2x)).

(** Just constructed and hovering at the target. *)
Definition first_tick_hovering : MyAviary :=
  example_env RPM None (example_state 0 0 1 hover_rpm_cf2x).

(** A stand-in for the collaborators around a drone in level hover: the
    rotation is the identity, every controller commands hover RPM, and the
    norm is the exact one. *)
Definition level_hover : Collaborators :=
  {| BaseAviary_init := fun args =>
       Py.ret (example_base (example_state 0 0 1 hover_rpm_cf2x));
     linalg_norm := np.norm;
     getQuaternionFromEuler := fun _ => [0; 0; 0; 1];
     getMatrixFromQuaternion := fun _ => [1; 0; 0; 0; 1; 0; 0; 0; 1];
     getMatrixFromQuaternion_shape := fun _ => eq_refl;
     _getDroneImages := fun _ => ([], [], []);
     computeControl := fun c _ =>
       ((np.scale hover_rpm_cf2x (np.ones 4), np.zeros 3, 0), c);
     _dslPIDAttitudeControl := fun c _ =>
       Py.ret (np.scale hover_rpm_cf2x (np.ones 4), c);
     setPIDCoefficients := fun c _ => c;
     nnlsRPM := fun _ => np.scale hover_rpm_cf2x (np.ones 4) |}.

(** A subclass that adds nothing. *)
Definition plain_subclass : Subclass := {| _trajectoryTrackingRPMs := None |}.

(** Constructor arguments with every default but the airframe and the
    action type. *)
Definition example_args (m : DroneModel) (a : py ActionType) : init_args :=
  {| drone_model := m;
     initial_xyzs := None;
     initial_rpys := None;
     physics := PYB;
     freq := 240;
     aggregate_phy_steps := 1;
     gui := false;
     record := false;
     obs := member KIN;
     act := a |}.

(** The caller passed the strings "rpm" and "kin" where the enumeration
    members were expected. *)
Definition mistyped_env : MyAviary :=
  {| base := example_base (example_state 0 0 1 hover_rpm_cf2x);
     OBS_TYPE := foreign "kin";
     ACT_TYPE := foreign "rpm";
     EPISODE_LEN_SEC := 5;
     target_ID := None;
     prev_action := None;
     prev_pos_err := None;
     ctrl := None;
     TUNED := None;
     SPEED_LIMIT := None;
     target_position := [0; 0; 1];
     prev_ := None |}.

(** An environment whose physics server holds no body yet. *)
Definition bare_world_env : MyAviary :=
  set_base (set_world [] (base first_tick_hovering)) first_tick_hovering.

(** A subclass that supplies [_trajectoryTrackingRPMs]: it commands hover. *)
Definition tracking_subclass : Subclass :=
  {| _trajectoryTrackingRPMs :=
       Some (fun self => (self, np.scale hover_rpm_cf2x (np.ones 4))) |}.

(** What [BaseAviary] holds when the camera is on: frames of 64 by 48
    pixels, one capture every 10 steps, [last] being the latest capture. *)
Definition camera_base (step : Z) (recording : bool) (last : Image) : BaseAviary :=
  {| INIT_XYZS := [[0; 0; 1]];
     HOVER_RPM := hover_rpm_cf2x;
     GRAVITY := 0.2646;
     MAX_SPEED_KMH := 30;
     MAX_THRUST := 0.5954;
     MAX_XY_TORQUE := 0.0059;
     MAX_Z_TORQUE := 0.0074;
     A := []; INV_A := []; B_COEFF := [];
     GUI := false;
     RECORD := recording;
     AGGR_PHY_STEPS := 1;
     TIMESTEP := 1 / 240;
     CLIENT := 0;
     IMG_RES := Some (64, 48)%Z;
     IMG_CAPTURE_FREQ := Some 10%Z;
     ONBOARD_IMG_PATH := Some "onboard/"%string;
     step_counter := step;
     rgb := Some last; dep := Some []; seg := Some [];
     exported := [];
     state_vector := example_state 0 0 1 hover_rpm_cf2x;
     world := [] |}.

(** A frame of a single pixel. *)
Definition one_pixel : Image := [[[1; 2; 3; 255]]]%Z.

(** An environment that observes through the camera. *)
Definition camera_env (step : Z) (recording : bool) (last : Image) : MyAviary :=
  {| base := camera_base step recording last;
     OBS_TYPE := member RGB;
     ACT_TYPE := member RPM;
     EPISODE_LEN_SEC := 5;
     target_ID := None;
     prev_action := None;
     prev_pos_err := None;
     ctrl := None;
     TUNED := None;
     SPEED_LIMIT := None;
     target_position := [0; 0; 1];
     prev_ := None |}.

(** An environment with every attribute that a decoding may read. *)
Definition equipped_env (a : ActionType) : MyAviary :=
  {| base := example_base (example_state 0 0 1 hover_rpm_cf2x);
     OBS_TYPE := member KIN;
     ACT_TYPE := member a;
     EPISODE_LEN_SEC := 5;
     target_ID := None;
     prev_action := None;
     prev_pos_err := None;
     ctrl := Some (DSLPIDControl CF2X);
     TUNED := Some cf2_gains;
     SPEED_LIMIT := Some (0.03 * 30 * (1000 / 3600));
     target_position := [0; 0; 1];
     prev_ := None |}.

(** * Properties *)

(** ** Effects *)

Lemma bind_ret_l {A B : Type} (v : A) (k : A -> Py.outcome B) :
  Py.bind (Py.ret v) k = k v.
Proof. unfold Py.bind, Py.ret. destruct (k v); reflexivity. Qed.

Lemma bind_returns_nil {A B : Type} (v : A) (k : A -> Py.outcome B) :
  Py.bind (Py.Returns [] v) k = k v.
Proof. apply bind_ret_l. Qed.

(** ** Arrays *)

Lemma dot_zeros (n : nat) : np.dot (np.zeros n) (np.zeros n) = 0.
Proof.
  induction n as [|n IH]; [reflexivity|].
  unfold np.dot, np.zeros in *; simpl; rewrite IH; lra.
Qed.

Lemma norm_zeros (n : nat) : np.norm (np.zeros n) = 0.
Proof. unfold np.norm; rewrite dot_zeros; apply sqrt_0. Qed.

Lemma dot_sub_self (a : ndarray) : np.dot (np.minus a a) (np.minus a a) = 0.
Proof.
  induction a as [|x a IH]; [reflexivity|].
  unfold np.dot, np.minus in *; simpl; rewrite IH; lra.
Qed.

Lemma norm_sub_self (a : ndarray) : np.norm (np.minus a a) = 0.
Proof. unfold np.norm; rewrite dot_sub_self; apply sqrt_0. Qed.

Lemma sub_same_length (a b : ndarray) :
  length a = length b -> np.sub a b = Py.Returns [] (np.minus a b).
Proof.
  intros H. unfold np.sub, np.broadcast. rewrite H, Nat.eqb_refl. reflexivity.
Qed.

Lemma gt_true (x y : R) : np.gt x y = true <-> x > y.
Proof. unfold np.gt; destruct (Rgt_dec x y); split; intros; auto; discriminate. Qed.

Lemma lt_true (x y : R) : np.lt x y = true <-> x < y.
Proof. unfold np.lt; destruct (Rlt_dec x y); split; intros; auto; discriminate. Qed.

Lemma ne_false (x y : R) : np.ne x y = false <-> x = y.
Proof.
  unfold np.ne; destruct (Req_dec_T x y); split; intros; auto;
    try discriminate; contradiction.
Qed.

(** A state vector of 20 entries, entry by entry. *)
Lemma state_vector_entries (s : ndarray) :
  length s = 20%nat ->
  exists x y z q0 q1 q2 q3 roll pitch yaw vx vy vz wx wy wz m0 m1 m2 m3,
    s = [x; y; z; q0; q1; q2; q3; roll; pitch; yaw;
         vx; vy; vz; wx; wy; wz; m0; m1; m2; m3].
Proof.
  intros H.
  do 20 (destruct s as [|? s]; [discriminate H|]).
  destruct s; [|discriminate H].
  repeat eexists.
Qed.

(** ** Termination *)

Lemma computeDone_entries (self : MyAviary)
      x y z q0 q1 q2 q3 roll pitch yaw vx vy vz wx wy wz m0 m1 m2 m3 :
  state_vector (base self) =
    [x; y; z; q0; q1; q2; q3; roll; pitch; yaw;
     vx; vy; vz; wx; wy; wz; m0; m1; m2; m3] ->
  _computeDone self =
    Py.Returns []
      (np.gt (Rabs x) 3 || np.gt (Rabs y) 3 || np.gt (Rabs z) 3
       || np.lt (Rabs z) 0.02
       || np.gt (Rabs roll) (PI / 2.0) || np.gt (Rabs pitch) (PI / 2.0)
       || np.gt (Rabs yaw) (PI / 2.0))%bool.
Proof.
  intros E. unfold _computeDone, _getDroneStateVector. rewrite E.
  cbn [np.slice Nat.sub firstn skipn np.getitem nth_error Py.or_ Py.bind Py.ret].
  unfold np.abs, np.pi.
  destruct (np.gt (Rabs x) 3); [reflexivity|].
  destruct (np.gt (Rabs y) 3); [reflexivity|].
  destruct (np.gt (Rabs z) 3); [reflexivity|].
  destruct (np.lt (Rabs z) 0.02); [reflexivity|].
  destruct (np.gt (Rabs roll) (PI / 2.0)); [reflexivity|].
  destruct (np.gt (Rabs pitch) (PI / 2.0)); [reflexivity|].
  destruct (np.gt (Rabs yaw) (PI / 2.0)); reflexivity.
Qed.

Lemma out_of_bounds_reflect
      x y z q0 q1 q2 q3 roll pitch yaw vx vy vz wx wy wz m0 m1 m2 m3 :
  (np.gt (Rabs x) 3 || np.gt (Rabs y) 3 || np.gt (Rabs z) 3
   || np.lt (Rabs z) 0.02
   || np.gt (Rabs roll) (PI / 2.0) || np.gt (Rabs pitch) (PI / 2.0)
   || np.gt (Rabs yaw) (PI / 2.0))%bool = true
  <-> out_of_bounds [x; y; z; q0; q1; q2; q3; roll; pitch; yaw;
                     vx; vy; vz; wx; wy; wz; m0; m1; m2; m3].
Proof.
  unfold out_of_bounds; cbn [nth].
  replace (PI / 2.0) with (PI / 2) by lra.
  rewrite !orb_true_iff, !gt_true, lt_true. tauto.
Qed.

(** ** C3: termination *)

(** C3, as the code has it.  For every 20-entry drone state [_computeDone]
    returns, and it returns true if and only if some position component
    exceeds 3 in magnitude, or the MAGNITUDE of the altitude is below 0.02
    (the source tests [np.abs(curr_pos[2]) < 0.02]), or some Euler angle
    exceeds pi/2 in magnitude.  The comparison against 3 is strict: a
    position component equal to 3.0001 yields true, and one equal to 3.0
    yields false when nothing else is out of bounds. *)
Theorem computeDone_iff_out_of_bounds (self : MyAviary) :
  length (state_vector (base self)) = 20%nat ->
  exists done : bool,
    _computeDone self = Py.Returns [] done
    /\ (done = true <-> out_of_bounds (state_vector (base self)))
    /\ (forall i, (i < 3)%nat ->
          nth i (state_vector (base self)) 0 = 3.0001 -> done = true)
    /\ (forall i, (i < 3)%nat ->
          nth i (state_vector (base self)) 0 = 3.0 ->
          (forall j, (j < 3)%nat -> Rabs (nth j (state_vector (base self)) 0) <= 3) ->
          0.02 <= Rabs (nth 2 (state_vector (base self)) 0) ->
          (forall j, (7 <= j < 10)%nat ->
             Rabs (nth j (state_vector (base self)) 0) <= PI / 2) ->
          done = false).
Proof.
  intros Hlen.
  destruct (state_vector_entries _ Hlen)
    as (x & y & z & q0 & q1 & q2 & q3 & roll & pitch & yaw
        & vx & vy & vz & wx & wy & wz & m0 & m1 & m2 & m3 & E).
  eexists. split; [apply (computeDone_entries self _ _ _ _ _ _ _ _ _ _ _ _ _ _ _ _ _ _ _ _ E)|].
  rewrite E.
  match goal with |- (?b = true <-> _) /\ _ => set (done := b) end.
  assert (Hiff : done = true <->
                 out_of_bounds [x; y; z; q0; q1; q2; q3; roll; pitch; yaw;
                                vx; vy; vz; wx; wy; wz; m0; m1; m2; m3])
    by apply out_of_bounds_reflect.
  split; [exact Hiff|]. split.
  - intros i Hi Hx. apply Hiff. unfold out_of_bounds. cbn [nth].
    destruct i as [|[|[|i]]]; [| | |lia]; cbn [nth] in Hx; rewrite Hx;
      rewrite (Rabs_right 3.0001) by lra;
      [left|right; left|right; right; left]; lra.
  - intros i Hi Hx Hpos Hz Hatt.
    destruct done eqn:D; [|reflexivity]. exfalso.
    assert (Hb : out_of_bounds [x; y; z; q0; q1; q2; q3; roll; pitch; yaw;
                                vx; vy; vz; wx; wy; wz; m0; m1; m2; m3])
      by (apply Hiff; reflexivity).
    unfold out_of_bounds in Hb. cbn [nth] in Hb, Hz.
    pose proof (Hpos 0%nat ltac:(lia)) as P0.
    pose proof (Hpos 1%nat ltac:(lia)) as P1.
    pose proof (Hpos 2%nat ltac:(lia)) as P2.
    pose proof (Hatt 7%nat ltac:(lia)) as A0.
    pose proof (Hatt 8%nat ltac:(lia)) as A1.
    pose proof (Hatt 9%nat ltac:(lia)) as A2.
    cbn [nth] in P0, P1, P2, A0, A1, A2.
    lra.
Qed.

(** Witness: a hovering drone whose x coordinate is 3.0 is not done. *)
Lemma computeDone_iff_out_of_bounds_witness :
  exists done : bool,
    _computeDone (example_env RPM None (example_state 3.0 0 1 hover_rpm_cf2x))
    = Py.Returns [] done
    /\ done = false.
Proof.
  destruct (computeDone_iff_out_of_bounds
              (example_env RPM None (example_state 3.0 0 1 hover_rpm_cf2x))
              eq_refl)
    as (done & Hrun & _ & _ & Hat3).
  exists done. split; [exact Hrun|].
  apply (Hat3 0%nat); [lia|reflexivity| | |].
  - intros j Hj. destruct j as [|[|[|j]]]; [| | |lia]; cbn [nth example_env base example_base state_vector example_state];
      rewrite Rabs_right; lra.
  - cbn [nth example_env base example_base state_vector example_state].
    rewrite Rabs_right; lra.
  - intros j Hj.
    assert (Hpi : 0 <= PI / 2) by (pose proof PI_RGT_0; lra).
    destruct j as [|[|[|[|[|[|[|[|[|[|j]]]]]]]]]]; try lia;
      cbn [nth example_env base example_base state_vector example_state];
      rewrite Rabs_R0; exact Hpi.
Defined.

(** The claim as worded fails below ground level: at altitude -1 the
    altitude is below 0.02, and [_computeDone] returns false. *)
Lemma computeDone_altitude_counterexample :
  nth 2 (state_vector (base (example_env RPM None
                              (example_state 0 0 (-1) hover_rpm_cf2x)))) 0 < 0.02
  /\ _computeDone (example_env RPM None (example_state 0 0 (-1) hover_rpm_cf2x))
     = Py.Returns [] false.
Proof.
  split; [cbn [nth example_env base example_base state_vector example_state]; lra|].
  erewrite computeDone_entries by reflexivity.
  f_equal.
  assert (Hpi : 0 < PI / 2.0) by (pose proof PI_RGT_0; lra).
  assert (G0 : np.gt (Rabs 0) 3 = false).
  { unfold np.gt. destruct (Rgt_dec _ _) as [H|H]; [|reflexivity].
    rewrite Rabs_R0 in H; lra. }
  assert (G1 : np.gt (Rabs (-1)) 3 = false).
  { unfold np.gt. destruct (Rgt_dec _ _) as [H|H]; [|reflexivity].
    rewrite Rabs_left in H; lra. }
  assert (L1 : np.lt (Rabs (-1)) 0.02 = false).
  { unfold np.lt. destruct (Rlt_dec _ _) as [H|H]; [|reflexivity].
    rewrite Rabs_left in H; lra. }
  assert (GA : np.gt (Rabs 0) (PI / 2.0) = false).
  { unfold np.gt. destruct (Rgt_dec _ _) as [H|H]; [|reflexivity].
    rewrite Rabs_R0 in H; lra. }
  rewrite G0, G1, L1, GA. reflexivity.
Qed.

(** ** Reward *)

Lemma invProcessAction_eval (self : MyAviary) (rpms : ndarray) :
  HOVER_RPM (base self) <> 0 ->
  _invProcessAction self rpms
  = Py.Returns [] (spec_action_phys (HOVER_RPM (base self)) rpms).
Proof.
  intros Hh. unfold _invProcessAction, np.divide.
  destruct (Req_dec_T (HOVER_RPM (base self)) 0) as [E|_]; [contradiction|].
  cbn [Py.bind Py.ret app]. f_equal.
  unfold spec_action_phys. rewrite map_map. apply map_ext. intros x. lra.
Qed.

Lemma computeReward_eval (self : MyAviary) :
  reward_shapes self ->
  HOVER_RPM (base self) <> 0 ->
  AGGR_PHY_STEPS (base self) <> 0%Z ->
  let s := state_vector (base self) in
  let a := spec_action_phys (HOVER_RPM (base self)) (np.slice_from 16 s) in
  _computeReward self
  = Py.Returns []
      (set_prev_action (Some a) self,
       spec_reward (np.slice 0 3 s) (target_position self) (np.slice 10 13 s)
                   (np.slice 7 10 s) a (code_da self a)).
Proof.
  intros (Hlen & Htgt & Hprev) Hh Hs s a.
  assert (Hsteps : IZR (AGGR_PHY_STEPS (base self)) <> 0) by (apply not_0_IZR; exact Hs).
  destruct (state_vector_entries _ Hlen)
    as (x & y & z & q0 & q1 & q2 & q3 & roll & pitch & yaw
        & vx & vy & vz & wx & wy & wz & m0 & m1 & m2 & m3 & E).
  assert (Hpos : np.sub (np.slice 0 3 s) (target_position self)
                 = Py.Returns [] (np.minus (np.slice 0 3 s) (target_position self))).
  { apply sub_same_length. rewrite Htgt. unfold s. rewrite E. reflexivity. }
  assert (Ha : length a = 4%nat).
  { unfold a, spec_action_phys, s. rewrite E. reflexivity. }
  unfold _computeReward, _getDroneStateVector. fold s.
  rewrite (invProcessAction_eval self _ Hh). fold a.
  cbn [Py.bind]. rewrite Hpos.
  unfold code_da, spec_da, np.divide.
  destruct (Req_dec_T (IZR (AGGR_PHY_STEPS (base self))) 0) as [E0|_];
    [contradiction|].
  destruct (prev_action self) as [prev|].
  - rewrite (sub_same_length a prev) by congruence. reflexivity.
  - reflexivity.
Qed.

Lemma norm_4_equal (c : R) : np.norm [c; c; c; c] = 2 * Rabs c.
Proof.
  unfold np.norm, np.dot. cbn [np.zip_with fold_right].
  replace (c * c + (c * c + (c * c + (c * c + 0)))) with (Rsqr (2 * c))
    by (unfold Rsqr; lra).
  rewrite sqrt_Rsqr_abs, Rabs_mult, (Rabs_right 2) by lra. reflexivity.
Qed.

(** Componentwise equality of two arrays written out in full. *)
Ltac entries := repeat (apply f_equal2; [try lra|]); try reflexivity.

(** C2, as the code has it.  With a previously stored action, nonzero hover
    RPM and steps per call, [_computeReward] returns exactly
    2.0 - 1.0*|pos-target| - 0.04*|vel| - 0.02*|euler| - 0.02*|action_phys|
    - 0.001*|da| with action_phys = (last_motor_rpm/hover_rpm - 1)*20 and
    da = (action_phys - previous_action_phys)/steps_per_call, and stores
    action_phys.  With position equal to the target, zero velocity, zero Euler
    angles and all motors at hover RPM the reward is
    2.0 - 0.001*|previous_action_phys|/steps_per_call: it is 2.0 when the
    stored action is the hover action too. *)
Theorem computeReward_with_previous_action (self : MyAviary) (prev : ndarray) :
  prev_action self = Some prev ->
  length prev = 4%nat ->
  length (state_vector (base self)) = 20%nat ->
  length (target_position self) = 3%nat ->
  HOVER_RPM (base self) <> 0 ->
  AGGR_PHY_STEPS (base self) <> 0%Z ->
  let s := state_vector (base self) in
  let hover := HOVER_RPM (base self) in
  let steps := IZR (AGGR_PHY_STEPS (base self)) in
  let action_phys := spec_action_phys hover (np.slice_from 16 s) in
  let da := spec_da steps action_phys prev in
  _computeReward self
  = Py.Returns []
      (set_prev_action (Some action_phys) self,
       spec_reward (np.slice 0 3 s) (target_position self) (np.slice 10 13 s)
                   (np.slice 7 10 s) action_phys da)
  /\ (np.slice 0 3 s = target_position self ->
      np.slice 10 13 s = np.zeros 3 ->
      np.slice 7 10 s = np.zeros 3 ->
      np.slice_from 16 s = [hover; hover; hover; hover] ->
      (spec_reward (np.slice 0 3 s) (target_position self) (np.slice 10 13 s)
                   (np.slice 7 10 s) action_phys da
       = 2.0 - 0.001 * np.norm (spec_da steps (np.zeros 4) prev))
      /\ (prev = np.zeros 4 ->
          spec_reward (np.slice 0 3 s) (target_position self) (np.slice 10 13 s)
                      (np.slice 7 10 s) action_phys da
          = 2.0)).
Proof.
  intros Hprev Hprev4 Hlen Htgt Hh Hs s hover steps action_phys da.
  assert (Hshapes : reward_shapes self).
  { unfold reward_shapes. rewrite Hprev. auto. }
  split.
  - pose proof (computeReward_eval self Hshapes Hh Hs) as E. cbv zeta in E.
    unfold code_da in E. rewrite Hprev in E. exact E.
  - intros Hpos Hvel Hatt Hrpm.
    assert (Ha : action_phys = np.zeros 4).
    { unfold action_phys, spec_action_phys. rewrite Hrpm.
      cbn [map np.zeros repeat]. entries; field; exact Hh. }
    assert (Hr : spec_reward (np.slice 0 3 s) (target_position self)
                             (np.slice 10 13 s) (np.slice 7 10 s) action_phys da
                 = 2.0 - 0.001 * np.norm (spec_da steps (np.zeros 4) prev)).
    { unfold spec_reward, da. rewrite Hpos, Hvel, Hatt, Ha.
      rewrite norm_sub_self, !norm_zeros. lra. }
    split; [exact Hr|].
    intros Hzero. rewrite Hr, Hzero.
    assert (Hd : spec_da steps (np.zeros 4) (np.zeros 4) = np.zeros 4).
    { unfold spec_da, steps. cbn [np.zeros repeat np.minus np.zip_with map].
      entries; field; apply not_0_IZR; exact Hs. }
    rewrite Hd, norm_zeros. lra.
Qed.

Lemma example_hover_rpm_nonzero (a : ActionType) (c : attr Controller) (s : ndarray) :
  HOVER_RPM (base (example_env a c s)) <> 0.
Proof. cbn [example_env base example_base HOVER_RPM]. unfold hover_rpm_cf2x. lra. Qed.

Lemma example_steps_nonzero (a : ActionType) (c : attr Controller) (s : ndarray) :
  AGGR_PHY_STEPS (base (example_env a c s)) <> 0%Z.
Proof. discriminate. Qed.

(** Witness: in steady hover at the target the reward is 2.0. *)
Lemma computeReward_with_previous_action_witness :
  exists self', _computeReward steady_hover = Py.Returns [] (self', 2.0).
Proof.
  destruct (computeReward_with_previous_action steady_hover (np.zeros 4)
              eq_refl eq_refl eq_refl eq_refl
              (example_hover_rpm_nonzero _ _ _) (example_steps_nonzero _ _ _))
    as [Hrun Hhover].
  destruct (Hhover eq_refl eq_refl eq_refl eq_refl) as [_ Htwo].
  eexists. rewrite Hrun, (Htwo eq_refl). reflexivity.
Defined.

Lemma hover_action_phys (h : R) :
  h <> 0 -> spec_action_phys h [h; h; h; h] = np.zeros 4.
Proof.
  intros Hh. unfold spec_action_phys. cbn [map np.zeros repeat].
  entries; field; exact Hh.
Qed.

(** The claim as worded fails when the stored action is not the hover action:
    position at the target, zero velocity, zero Euler angles, all motors at
    hover RPM, an action stored before, and the reward is 1.998. *)
Lemma computeReward_hover_counterexample :
  prev_action hover_after_climb = Some [1; 1; 1; 1]
  /\ np.slice 0 3 (state_vector (base hover_after_climb))
     = target_position hover_after_climb
  /\ np.slice 10 13 (state_vector (base hover_after_climb)) = np.zeros 3
  /\ np.slice 7 10 (state_vector (base hover_after_climb)) = np.zeros 3
  /\ np.slice_from 16 (state_vector (base hover_after_climb))
     = [hover_rpm_cf2x; hover_rpm_cf2x; hover_rpm_cf2x; hover_rpm_cf2x]
  /\ exists self' r,
       _computeReward hover_after_climb = Py.Returns [] (self', r)
       /\ r = 1.998 /\ r <> 2.0.
Proof.
  repeat (split; [reflexivity|]).
  do 2 eexists. split.
  - apply (computeReward_eval hover_after_climb
             (conj eq_refl (conj eq_refl eq_refl))
             (example_hover_rpm_nonzero _ _ _) (example_steps_nonzero _ _ _)).
  - assert (Ha : spec_action_phys (HOVER_RPM (base hover_after_climb))
                   (np.slice_from 16 (state_vector (base hover_after_climb)))
                 = np.zeros 4).
    { apply (hover_action_phys hover_rpm_cf2x). unfold hover_rpm_cf2x. lra. }
    rewrite Ha.
    assert (Hd : code_da hover_after_climb (np.zeros 4) = [-1; -1; -1; -1]).
    { unfold code_da, spec_da.
      cbn [hover_after_climb set_prev_action prev_action base example_env
           example_base AGGR_PHY_STEPS np.zeros repeat np.minus np.zip_with map].
      entries. }
    rewrite Hd.
    assert (Hr : spec_reward (np.slice 0 3 (state_vector (base hover_after_climb)))
                   (target_position hover_after_climb)
                   (np.slice 10 13 (state_vector (base hover_after_climb)))
                   (np.slice 7 10 (state_vector (base hover_after_climb)))
                   (np.zeros 4) [-1; -1; -1; -1] = 1.998).
    { unfold spec_reward.
      change (np.slice 0 3 (state_vector (base hover_after_climb)))
        with (target_position hover_after_climb).
      change (np.slice 10 13 (state_vector (base hover_after_climb)))
        with (np.zeros 3).
      change (np.slice 7 10 (state_vector (base hover_after_climb)))
        with (np.zeros 3).
      rewrite norm_sub_self, !norm_zeros, norm_4_equal, Rabs_left by lra. lra. }
    rewrite Hr. split; [reflexivity|lra].
Qed.

(** ** C4: the first call *)

Lemma sub_zeros (a : ndarray) : np.minus a (np.zeros (length a)) = a.
Proof.
  induction a as [|x a IH]; [reflexivity|].
  unfold np.minus, np.zeros in *. cbn [length repeat np.zip_with].
  rewrite IH. f_equal. lra.
Qed.

(** C4, as the code has it.  On a call with no stored action (after
    construction) [_computeReward] takes the previous action to be ZERO, not
    action_phys: da = action_phys/steps_per_call, the derivative term is
    0.001*|action_phys/steps_per_call|, and action_phys is stored.  The term
    is zero when all motors run at hover RPM. *)
Theorem computeReward_first_call (self : MyAviary) :
  prev_action self = None ->
  length (state_vector (base self)) = 20%nat ->
  length (target_position self) = 3%nat ->
  HOVER_RPM (base self) <> 0 ->
  AGGR_PHY_STEPS (base self) <> 0%Z ->
  let s := state_vector (base self) in
  let hover := HOVER_RPM (base self) in
  let steps := IZR (AGGR_PHY_STEPS (base self)) in
  let action_phys := spec_action_phys hover (np.slice_from 16 s) in
  let da := map (fun d => d / steps) action_phys in
  _computeReward self
  = Py.Returns []
      (set_prev_action (Some action_phys) self,
       spec_reward (np.slice 0 3 s) (target_position self) (np.slice 10 13 s)
                   (np.slice 7 10 s) action_phys da)
  /\ da = spec_da steps action_phys (np.zeros (length action_phys))
  /\ (np.slice_from 16 s = [hover; hover; hover; hover] -> np.norm da = 0).
Proof.
  intros Hprev Hlen Htgt Hh Hs s hover steps action_phys da.
  assert (Hshapes : reward_shapes self).
  { unfold reward_shapes. rewrite Hprev. auto. }
  split; [|split].
  - pose proof (computeReward_eval self Hshapes Hh Hs) as E. cbv zeta in E.
    unfold code_da in E. rewrite Hprev in E. exact E.
  - unfold da, spec_da. rewrite sub_zeros. reflexivity.
  - intros Hrpm. unfold da, action_phys. rewrite Hrpm. unfold hover.
    rewrite (hover_action_phys _ Hh).
    assert (Hd : map (fun d => d / steps) (np.zeros 4) = np.zeros 4).
    { unfold steps. cbn [np.zeros repeat map].
      entries; field; apply not_0_IZR; exact Hs. }
    rewrite Hd. apply norm_zeros.
Qed.

(** Witness: on the first call of a hovering drone the derivative is zero. *)
Lemma computeReward_first_call_witness :
  np.norm (map (fun d => d / IZR (AGGR_PHY_STEPS (base first_tick_hovering)))
             (spec_action_phys (HOVER_RPM (base first_tick_hovering))
                (np.slice_from 16 (state_vector (base first_tick_hovering)))))
  = 0.
Proof.
  destruct (computeReward_first_call first_tick_hovering eq_refl eq_refl eq_refl
              (example_hover_rpm_nonzero _ _ _) (example_steps_nonzero _ _ _))
    as (_ & _ & Hzero).
  apply Hzero. reflexivity.
Defined.

(** The claim as worded fails when the motors are not at hover RPM: on the
    first call of [first_tick_climbing] action_phys is [1,1,1,1], the reward
    is 1.958, and with a zero derivative term it would be 1.96. *)
Lemma computeReward_first_call_counterexample :
  prev_action first_tick_climbing = None
  /\ exists self' r,
       _computeReward first_tick_climbing = Py.Returns [] (self', r)
       /\ prev_action self' = Some [1; 1; 1; 1]
       /\ r = 1.958
       /\ spec_reward (np.slice 0 3 (state_vector (base first_tick_climbing)))
            (target_position first_tick_climbing)
            (np.slice 10 13 (state_vector (base first_tick_climbing)))
            (np.slice 7 10 (state_vector (base first_tick_climbing)))
            [1; 1; 1; 1] (np.zeros 4)
          = 1.96.
Proof.
  split; [reflexivity|].
  assert (Ha : spec_action_phys (HOVER_RPM (base first_tick_climbing))
                 (np.slice_from 16 (state_vector (base first_tick_climbing)))
               = [1; 1; 1; 1]).
  { unfold spec_action_phys.
    cbn [first_tick_climbing example_env base example_base HOVER_RPM
         state_vector example_state np.slice_from skipn map].
    unfold hover_rpm_cf2x. entries. }
  do 2 eexists. split; [|split; [|split]].
  - rewrite (computeReward_eval first_tick_climbing
               (conj eq_refl (conj eq_refl I))
               (example_hover_rpm_nonzero _ _ _) (example_steps_nonzero _ _ _)).
    rewrite Ha. reflexivity.
  - reflexivity.
  - assert (Hd : code_da first_tick_climbing [1; 1; 1; 1] = [1; 1; 1; 1]).
    { unfold code_da.
      cbn [first_tick_climbing prev_action base example_env example_base
           AGGR_PHY_STEPS map].
      entries. }
    rewrite Hd. unfold spec_reward.
    change (np.slice 0 3 (state_vector (base first_tick_climbing)))
      with (target_position first_tick_climbing).
    change (np.slice 10 13 (state_vector (base first_tick_climbing)))
      with (np.zeros 3).
    change (np.slice 7 10 (state_vector (base first_tick_climbing)))
      with (np.zeros 3).
    rewrite norm_sub_self, !norm_zeros, norm_4_equal, Rabs_right by lra. lra.
  - unfold spec_reward.
    change (np.slice 0 3 (state_vector (base first_tick_climbing)))
      with (target_position first_tick_climbing).
    change (np.slice 10 13 (state_vector (base first_tick_climbing)))
      with (np.zeros 3).
    change (np.slice 7 10 (state_vector (base first_tick_climbing)))
      with (np.zeros 3).
    rewrite norm_sub_self, !norm_zeros, norm_4_equal, Rabs_right by lra. lra.
Qed.

(** ** Observations *)

Lemma hstack_4 (a b c d : ndarray) : np.hstack [a; b; c; d] = a ++ b ++ c ++ d.
Proof. unfold np.hstack. cbn [concat]. rewrite app_nil_r. reflexivity. Qed.

(** The kinematic observation, evaluated. *)
Lemma computeObs_kin_eval (K : Collaborators) (self : MyAviary) :
  OBS_TYPE self = member KIN ->
  length (state_vector (base self)) = 20%nat ->
  length (target_position self) = 3%nat ->
  let s := state_vector (base self) in
  let v := np.minus (target_position self) (np.slice 0 3 s)
           ++ np.slice 10 13 s ++ np.slice 13 16 s
           ++ getMatrixFromQuaternion K (getQuaternionFromEuler K (np.slice 7 10 s)) in
  _computeObs K self = Py.Returns [] (self, Some (vector v))
  /\ length v = 18%nat
  /\ forall i, (i < 3)%nat -> nth i v 0 = nth i (target_position self) 0 - nth i s 0.
Proof.
  intros Hobs Hlen Htgt s v.
  destruct (state_vector_entries _ Hlen)
    as (x & y & z & q0 & q1 & q2 & q3 & roll & pitch & yaw
        & vx & vy & vz & wx & wy & wz & m0 & m1 & m2 & m3 & E).
  assert (Hdiff : np.sub (target_position self) (np.slice 0 3 s)
                  = Py.Returns [] (np.minus (target_position self) (np.slice 0 3 s))).
  { apply sub_same_length. rewrite Htgt. unfold s. rewrite E. reflexivity. }
  assert (Hv : length v = 18%nat).
  { unfold v. rewrite !length_app, getMatrixFromQuaternion_shape.
    destruct (target_position self) as [|t0 [|t1 [|t2 [|? ?]]]];
      try discriminate Htgt.
    unfold s. rewrite E. reflexivity. }
  split; [|split].
  - unfold _computeObs, _getDroneStateVector. rewrite Hobs.
    cbn [is_obs]. fold s. rewrite Hdiff, bind_returns_nil, hstack_4. fold v.
    unfold np.reshape. rewrite Hv. reflexivity.
  - exact Hv.
  - intros i Hi. unfold v, s. rewrite E.
    destruct (target_position self) as [|t0 [|t1 [|t2 [|? ?]]]];
      try discriminate Htgt.
    destruct i as [|[|[|i]]]; [reflexivity|reflexivity|reflexivity|lia].
Qed.

(** C7.  Under [ObservationType.KIN], for every 20-entry drone state and
    stored 3-entry target, [_computeObs] returns an 18-element vector: the
    concatenation of target_position - current_position (3), the linear
    velocity (3), the angular velocity (3) and the 9 entries that the engine
    returns for the rotation matrix of the current roll-pitch-yaw; its first
    3 elements are target - position. *)
Theorem computeObs_kin_is_18_vector (K : Collaborators) (self : MyAviary) :
  OBS_TYPE self = member KIN ->
  length (state_vector (base self)) = 20%nat ->
  length (target_position self) = 3%nat ->
  let s := state_vector (base self) in
  let diff := np.minus (target_position self) (np.slice 0 3 s) in
  let rotation :=
    getMatrixFromQuaternion K (getQuaternionFromEuler K (np.slice 7 10 s)) in
  exists v : ndarray,
    _computeObs K self = Py.Returns [] (self, Some (vector v))
    /\ length v = 18%nat
    /\ v = diff ++ np.slice 10 13 s ++ np.slice 13 16 s ++ rotation
    /\ length diff = 3%nat
    /\ length (np.slice 10 13 s) = 3%nat
    /\ length (np.slice 13 16 s) = 3%nat
    /\ length rotation = 9%nat
    /\ firstn 3 v = diff
    /\ forall i, (i < 3)%nat ->
         nth i v 0 = nth i (target_position self) 0 - nth i s 0.
Proof.
  intros Hobs Hlen Htgt s diff rotation.
  destruct (computeObs_kin_eval K self Hobs Hlen Htgt) as (Hrun & Hv & Hfirst).
  eexists. split; [exact Hrun|]. split; [exact Hv|]. split; [reflexivity|].
  destruct (state_vector_entries _ Hlen)
    as (x & y & z & q0 & q1 & q2 & q3 & roll & pitch & yaw
        & vx & vy & vz & wx & wy & wz & m0 & m1 & m2 & m3 & E).
  destruct (target_position self) as [|t0 [|t1 [|t2 [|? ?]]]] eqn:T;
    try discriminate Htgt.
  unfold diff, rotation, s. rewrite E.
  repeat split; try reflexivity.
  - apply getMatrixFromQuaternion_shape.
  - intros i Hi. specialize (Hfirst i Hi). unfold s in Hfirst.
    rewrite E in Hfirst. exact Hfirst.
Qed.

(** Witness: the observation of a drone hovering at [0,0,1] with target
    [0,0,1]. *)
Lemma computeObs_kin_is_18_vector_witness :
  exists v : ndarray,
    _computeObs level_hover first_tick_hovering
    = Py.Returns [] (first_tick_hovering, Some (vector v))
    /\ length v = 18%nat.
Proof.
  destruct (computeObs_kin_is_18_vector level_hover first_tick_hovering
              eq_refl eq_refl eq_refl)
    as (v & Hrun & Hlen & _).
  exists v. split; [exact Hrun|exact Hlen].
Defined.

(** ** C1: the declared observation space *)

(** C1 at every kinematic configuration: [_observationSpace] declares the
    shape (12,), and [_computeObs] returns a vector of 18 entries. *)
Theorem kin_observation_is_not_of_declared_shape
        (K : Collaborators) (self : MyAviary) :
  OBS_TYPE self = member KIN ->
  length (state_vector (base self)) = 20%nat ->
  length (target_position self) = 3%nat ->
  exists (v : ndarray) (box : spaces.Box),
    _computeObs K self = Py.Returns [] (self, Some (vector v))
    /\ _observationSpace self = Py.Returns [] (Some box)
    /\ spaces.shape box = [12%Z]
    /\ [Z.of_nat (length v)] = [18%Z]
    /\ [Z.of_nat (length v)] <> spaces.shape box.
Proof.
  intros Hobs Hlen Htgt.
  destruct (computeObs_kin_eval K self Hobs Hlen Htgt) as (Hrun & Hv & _).
  do 2 eexists. split; [exact Hrun|].
  split; [unfold _observationSpace; rewrite Hobs; reflexivity|].
  split; [reflexivity|]. rewrite Hv. split; [reflexivity|discriminate].
Qed.

Lemma kin_observation_is_not_of_declared_shape_witness :
  exists (v : ndarray) (box : spaces.Box),
    _computeObs level_hover first_tick_hovering
    = Py.Returns [] (first_tick_hovering, Some (vector v))
    /\ _observationSpace first_tick_hovering = Py.Returns [] (Some box)
    /\ [Z.of_nat (length v)] <> spaces.shape box.
Proof.
  destruct (kin_observation_is_not_of_declared_shape level_hover
              first_tick_hovering eq_refl eq_refl eq_refl)
    as (v & box & Hrun & Hspace & _ & _ & Hne).
  exists v, box. repeat split; assumption.
Defined.

(** ** Decoding actions *)

Lemma scale_zeros (k : R) (n : nat) : np.scale k (np.zeros n) = np.zeros n.
Proof.
  induction n as [|n IH]; [reflexivity|].
  unfold np.scale, np.zeros in *. cbn [repeat map]. rewrite IH. f_equal. lra.
Qed.

(** The division of [ActionType.VEL] never has a zero divisor. *)
Lemma v_unit_vector_returns (K : Collaborators) (action : ndarray) :
  exists v, v_unit_vector K action = Py.Returns [] v.
Proof.
  unfold v_unit_vector, np.ne, np.divide.
  destruct (Req_dec_T (linalg_norm K (np.slice 0 3 action)) 0);
    eexists; reflexivity.
Qed.

(** C8.  Under [ActionType.VEL], for every 4-entry action whose first three
    components have a norm that numpy computes as zero (in particular
    [0,0,0,x] for every x, the norm of [zeros(3)] being 0), [_preprocessAction]
    does not divide by that norm: the direction is [zeros(3)], the position
    controller [computeControl] is called with a target velocity of zero
    magnitude, and what it returns is the command.  The division is never by
    zero, whatever the action. *)
Theorem preprocessAction_vel_zero_norm
        (K : Collaborators) (cls : Subclass) (self : MyAviary)
        (action : ndarray) (c : Controller) (limit : R) :
  ACT_TYPE self = member VEL ->
  ctrl self = Some c ->
  SPEED_LIMIT self = Some limit ->
  length (state_vector (base self)) = 20%nat ->
  length action = 4%nat ->
  linalg_norm K (np.slice 0 3 action) = 0 ->
  let s := state_vector (base self) in
  let called :=
    computeControl K c
      {| cc_control_timestep := control_timestep self;
         cc_cur_pos := np.slice 0 3 s;
         cc_cur_quat := np.slice 3 7 s;
         cc_cur_vel := np.slice 10 13 s;
         cc_cur_ang_vel := np.slice 13 16 s;
         cc_target_pos := np.slice 0 3 s;
         cc_target_rpy := Some [0; 0; nth 9 s 0];
         cc_target_vel := Some (np.zeros 3) |} in
  v_unit_vector K action = Py.Returns [] (np.zeros 3)
  /\ _preprocessAction K cls self action
     = Py.Returns []
         (set_ctrl (snd called) self, Some (fst (fst (fst called))))
  /\ np.norm (np.zeros 3) = 0
  /\ (linalg_norm K (np.zeros 3) = 0 ->
      forall x,
        _preprocessAction K cls self [0; 0; 0; x]
        = Py.Returns []
            (set_ctrl (snd called) self, Some (fst (fst (fst called)))))
  /\ (forall any : ndarray, exists v, v_unit_vector K any = Py.Returns [] v).
Proof.
  intros Hact Hctrl Hlim Hlen Hact4 Hnorm s called.
  destruct (state_vector_entries _ Hlen)
    as (x & y & z & q0 & q1 & q2 & q3 & roll & pitch & yaw
        & vx & vy & vz & wx & wy & wz & m0 & m1 & m2 & m3 & E).
  assert (Hyaw : np.getitem (state_vector (base self)) 9
                 = Py.ret (nth 9 (state_vector (base self)) 0))
    by (rewrite E; reflexivity).
  assert (Hzero : forall act : ndarray,
             length act = 4%nat ->
             linalg_norm K (np.slice 0 3 act) = 0 ->
             v_unit_vector K act = Py.Returns [] (np.zeros 3)
             /\ _preprocessAction K cls self act
                = Py.Returns []
                    (set_ctrl (snd called) self,
                     Some (fst (fst (fst called))))).
  { intros act Hact4' Hnorm'.
    assert (Hv : v_unit_vector K act = Py.Returns [] (np.zeros 3)).
    { unfold v_unit_vector. rewrite Hnorm'.
      replace (np.ne 0 0) with false by (symmetry; apply ne_false; reflexivity).
      reflexivity. }
    split; [exact Hv|].
    destruct act as [|a0 [|a1 [|a2 [|a3 [|? ?]]]]]; try discriminate Hact4'.
    unfold _preprocessAction. rewrite Hact. cbn [is_act ActionType_eqb].
    rewrite Hv, Hctrl, Hlim. unfold _getDroneStateVector. rewrite Hyaw.
    change (Py.Returns [] (np.zeros 3)) with (Py.ret (np.zeros 3)).
    cbn [Py.getattr np.getitem nth_error].
    rewrite !bind_ret_l, scale_zeros. reflexivity. }
  destruct (Hzero action Hact4 Hnorm) as (Hv & Hrun).
  split; [exact Hv|]. split; [exact Hrun|]. split; [apply norm_zeros|]. split.
  - intros Hzeros x0. apply (Hzero [0; 0; 0; x0] eq_refl). exact Hzeros.
  - apply v_unit_vector_returns.
Qed.

(** A velocity-controlled CF2X; the action asks for full speed in no
    direction. *)
Lemma preprocessAction_vel_zero_norm_witness :
  exists args : computeControl_args,
    _preprocessAction level_hover plain_subclass
      (example_env VEL (Some (DSLPIDControl CF2X))
                   (example_state 0 0 1 hover_rpm_cf2x))
      [0; 0; 0; 1]
    = Py.Returns []
        (set_ctrl (snd (computeControl level_hover (DSLPIDControl CF2X) args))
           (example_env VEL (Some (DSLPIDControl CF2X))
                        (example_state 0 0 1 hover_rpm_cf2x)),
         Some (fst (fst (fst (computeControl level_hover
                                (DSLPIDControl CF2X) args)))))
    /\ cc_target_vel args = Some [0; 0; 0].
Proof.
  destruct (preprocessAction_vel_zero_norm level_hover plain_subclass
              (example_env VEL (Some (DSLPIDControl CF2X))
                           (example_state 0 0 1 hover_rpm_cf2x))
              [0; 0; 0; 1] (DSLPIDControl CF2X) (0.03 * 30 * (1000 / 3600))
              eq_refl eq_refl eq_refl eq_refl eq_refl (norm_zeros 3))
    as (_ & Hrun & _).
  eexists. split; [exact Hrun|reflexivity].
Defined.

(** C9.  For every scalar [a] (in particular in [-1,1]), decoding [[a]] under
    [ActionType.ONE_D_RPM] and decoding [[a,a,a,a]] under [ActionType.RPM], with
    the same hover RPM, give the same 4-element command, each motor at
    hover_rpm*(1+0.05*a); decoding zeros under RPM and [[0]] under ONE_D_RPM
    both give [[hover_rpm]*4]. *)
Theorem one_d_rpm_agrees_with_rpm
        (K : Collaborators) (cls : Subclass) (one_d four_d : MyAviary) (a : R) :
  ACT_TYPE one_d = member ONE_D_RPM ->
  ACT_TYPE four_d = member RPM ->
  HOVER_RPM (base one_d) = HOVER_RPM (base four_d) ->
  let hover_rpm := HOVER_RPM (base four_d) in
  let each := hover_rpm * (1 + 0.05 * a) in
  _preprocessAction K cls one_d [a]
  = Py.Returns [] (one_d, Some [each; each; each; each])
  /\ _preprocessAction K cls four_d [a; a; a; a]
     = Py.Returns [] (four_d, Some [each; each; each; each])
  /\ _preprocessAction K cls four_d (np.zeros 4)
     = Py.Returns [] (four_d, Some [hover_rpm; hover_rpm; hover_rpm; hover_rpm])
  /\ _preprocessAction K cls one_d [0]
     = Py.Returns [] (one_d, Some [hover_rpm; hover_rpm; hover_rpm; hover_rpm]).
Proof.
  intros Hone Hfour Hsame hover_rpm each.
  unfold _preprocessAction. rewrite Hone, Hfour, Hsame.
  cbn [is_act ActionType_eqb np.repeat_each flat_map map repeat app np.zeros
       Py.ret].
  fold hover_rpm. fold each.
  unfold Py.ret. repeat split; try reflexivity; repeat f_equal; lra.
Qed.

Lemma one_d_rpm_agrees_with_rpm_witness :
  _preprocessAction level_hover plain_subclass
    (example_env ONE_D_RPM None (example_state 0 0 1 hover_rpm_cf2x)) [0]
  = Py.Returns []
      (example_env ONE_D_RPM None (example_state 0 0 1 hover_rpm_cf2x),
       Some [hover_rpm_cf2x; hover_rpm_cf2x; hover_rpm_cf2x; hover_rpm_cf2x])
  /\ _preprocessAction level_hover plain_subclass
       (example_env RPM None (example_state 0 0 1 hover_rpm_cf2x)) (np.zeros 4)
     = Py.Returns []
         (example_env RPM None (example_state 0 0 1 hover_rpm_cf2x),
          Some [hover_rpm_cf2x; hover_rpm_cf2x; hover_rpm_cf2x; hover_rpm_cf2x]).
Proof.
  destruct (one_d_rpm_agrees_with_rpm level_hover plain_subclass
              (example_env ONE_D_RPM None (example_state 0 0 1 hover_rpm_cf2x))
              (example_env RPM None (example_state 0 0 1 hover_rpm_cf2x))
              0 eq_refl eq_refl eq_refl)
    as (_ & _ & Hrpm & Hone).
  split; [exact Hone|exact Hrpm].
Defined.

(** ** Construction *)

Lemma bind_returned {A B : Type} (c : Py.outcome A) (k : A -> Py.outcome B) (w : B) :
  Py.returned (Py.bind c k) = Some w ->
  exists out v, c = Py.Returns out v /\ Py.returned (k v) = Some w.
Proof.
  destruct c as [out v| |]; cbn [Py.bind Py.returned]; try discriminate.
  intros H. exists out, v. split; [reflexivity|].
  destruct (k v); cbn [Py.returned] in *; congruence.
Qed.

Lemma controllers_for_cf2p (act : py ActionType) :
  act_in act [PID; VEL; TUN; THR; ONE_D_PID] = true ->
  create_integrated_controllers CF2P act
  = Py.Returns [] (Some (DSLPIDControl CF2X),
                   if is_act act TUN then Some cf2_gains else None).
Proof.
  intros Hact. unfold create_integrated_controllers. rewrite Hact. reflexivity.
Qed.

(** C10.  For every construction with [drone_model = CF2P] and an action type
    that needs a closed-loop controller (PID, VEL, TUN, THR, ONE_D_PID), the
    controller created is a [DSLPIDControl] constructed with
    [drone_model = CF2X], not CF2P, and it is the controller of the
    environment that the constructor returns. *)
Theorem cf2p_gets_the_cf2x_controller
        (K : Collaborators) (cls : Subclass) (a : init_args) :
  drone_model a = CF2P ->
  act_in (act a) [PID; VEL; TUN; THR; ONE_D_PID] = true ->
  (exists gains,
      create_integrated_controllers (drone_model a) (act a)
      = Py.Returns [] (Some (DSLPIDControl CF2X), gains))
  /\ control_class (DSLPIDControl CF2X) = DSLPIDControl_cls
  /\ DRONE_MODEL (DSLPIDControl CF2X) = CF2X
  /\ DRONE_MODEL (DSLPIDControl CF2X) <> drone_model a
  /\ (forall self, Py.returned (__init__ K cls a) = Some self ->
        ctrl self = Some (DSLPIDControl CF2X)).
Proof.
  intros Hmodel Hact. rewrite Hmodel.
  split; [eexists; apply (controllers_for_cf2p _ Hact)|].
  repeat split; try discriminate.
  intros self Hret. unfold __init__ in Hret.
  rewrite Hmodel, (controllers_for_cf2p _ Hact) in Hret.
  change (Py.Returns [] ?v) with (Py.ret v) in Hret. rewrite bind_ret_l in Hret.
  apply bind_returned in Hret. destruct Hret as (out & b & _ & Hret).
  apply bind_returned in Hret. destruct Hret as (out1 & [] & _ & Hret).
  apply bind_returned in Hret. destruct Hret as (out2 & row & _ & Hret).
  cbn [Py.ret Py.returned] in Hret. injection Hret as <-. reflexivity.
Qed.

(** Witness: constructing a CF2P under PID control returns an environment,
    and its controller is the CF2X one. *)
Lemma cf2p_gets_the_cf2x_controller_witness :
  exists self,
    __init__ level_hover plain_subclass (example_args CF2P (member PID))
    = Py.Returns [] self
    /\ ctrl self = Some (DSLPIDControl CF2X).
Proof.
  eexists. split; [reflexivity|].
  destruct (cf2p_gets_the_cf2x_controller level_hover plain_subclass
              (example_args CF2P (member PID)) eq_refl eq_refl)
    as (_ & _ & _ & _ & Hctrl).
  apply Hctrl. reflexivity.
Defined.

(** What the claim of fatal misconfiguration has right: [ActionType.TUN]
    without [_trajectoryTrackingRPMs] prints and exits, and an action type
    that is no member stops [_actionSpace]. *)
Lemma tun_without_tracking_exits
      (K : Collaborators) (cls : Subclass) (a : init_args)
      (out : list string) (b : BaseAviary) :
  act a = member TUN ->
  _trajectoryTrackingRPMs cls = None ->
  model_in (drone_model a) [CF2X; CF2P; HB] = true ->
  BaseAviary_init K (super_args a) = Py.Returns out b ->
  __init__ K cls a = Py.Exits (out ++ [no_tracking_message]).
Proof.
  intros Hact Hcls Hmodel Hbase. unfold __init__, create_integrated_controllers.
  rewrite Hact, Hbase. unfold has_trajectoryTrackingRPMs. rewrite Hcls.
  destruct (drone_model a); try discriminate Hmodel;
    cbn -[no_tracking_message]; reflexivity.
Qed.

Lemma actionSpace_foreign_exits (self : MyAviary) (repr : string) :
  ACT_TYPE self = foreign repr ->
  _actionSpace self
  = Py.Exits ["[ERROR] in BaseSingleAgentAviary._actionSpace()"%string].
Proof. intros H. unfold _actionSpace. rewrite H. reflexivity. Qed.

(** C6 where the code departs from it.  A drone model without a controller
    (with a closed-loop action type other than TUN) is reported on standard
    output and construction goes on: the constructor returns an environment
    that has no controller.  An action type that is no member of [ActionType]
    is reported by [_preprocessAction], which then returns [None]; likewise
    an observation type that is no member, by [_observationSpace] and
    [_computeObs]. *)
Theorem misconfiguration_is_printed_and_survived
        (K : Collaborators) (cls : Subclass) (a : init_args) (m : string)
        (out : list string) (b : BaseAviary) (row : ndarray)
        (self : MyAviary) (action : ndarray) (repr repr' : string) :
  drone_model a = OtherModel m ->
  act_in (act a) [PID; VEL; THR; ONE_D_PID] = true ->
  BaseAviary_init K (super_args a) = Py.Returns out b ->
  nth_error (INIT_XYZS b) 0 = Some row ->
  ACT_TYPE self = foreign repr ->
  OBS_TYPE self = foreign repr' ->
  (exists env,
      __init__ K cls a = Py.Returns (no_controller_message :: out) env
      /\ ctrl env = None
      /\ _preprocessAction K cls env action
         = Py.Raises [] "AttributeError: ctrl")
  /\ _preprocessAction K cls self action
     = Py.Returns ["[ERROR] in BaseSingleAgentAviary._preprocessAction()"%string]
         (self, None)
  /\ _observationSpace self
     = Py.Returns ["[ERROR] in BaseSingleAgentAviary._observationSpace()"%string]
         None
  /\ _computeObs K self
     = Py.Returns ["[ERROR] in BaseSingleAgentAviary._computeObs()"%string]
         (self, None).
Proof.
  intros Hmodel Hact Hbase Hrow Hforeign Hobs.
  split; [|split; [|split]].
  - unfold __init__, create_integrated_controllers.
    rewrite Hmodel.
    assert (Hin : act_in (act a) [PID; VEL; TUN; THR; ONE_D_PID] = true).
    { destruct (act a) as [[]|]; cbn in Hact |- *; congruence. }
    assert (Htun : is_act (act a) TUN = false).
    { destruct (act a) as [[]|]; cbn in Hact |- *; congruence. }
    rewrite Hin, Hbase.
    cbn [model_in existsb is_model orb Py.bind Py.print Py.ret app].
    rewrite Htun, Hrow.
    cbn [andb Py.bind Py.print Py.ret app fst snd].
    rewrite app_nil_r. eexists. split; [reflexivity|]. split; [reflexivity|].
    unfold _preprocessAction. cbn [ACT_TYPE ctrl].
    destruct (v_unit_vector_returns K action) as (v & Hv).
    destruct (act a) as [[]|]; cbn in Hact; try discriminate Hact;
      cbn [is_act ActionType_eqb]; try rewrite Hv; reflexivity.
  - unfold _preprocessAction. rewrite Hforeign. reflexivity.
  - unfold _observationSpace. rewrite Hobs. reflexivity.
  - unfold _computeObs. rewrite Hobs. reflexivity.
Qed.

(** Witness: constructing an airframe that has no controller, under PID
    control, prints the error and returns an environment without controller. *)
Lemma misconfiguration_is_printed_and_survived_witness :
  exists env,
    __init__ level_hover plain_subclass
             (example_args (OtherModel "race") (member PID))
    = Py.Returns [no_controller_message] env
    /\ ctrl env = None
    /\ _preprocessAction level_hover plain_subclass env [0; 0; 0]
       = Py.Raises [] "AttributeError: ctrl".
Proof.
  destruct (misconfiguration_is_printed_and_survived level_hover plain_subclass
              (example_args (OtherModel "race") (member PID)) "race" []
              (example_base (example_state 0 0 1 hover_rpm_cf2x)) [0; 0; 1]
              mistyped_env [0; 0; 0] "rpm" "kin"
              eq_refl eq_refl eq_refl eq_refl eq_refl eq_refl)
    as ((env & Hrun & Hctrl & Hdecode) & _).
  exists env. repeat split; assumption.
Defined.

(** ** The target *)

Lemma place_length (pos orn : ndarray) (n : nat) (w : list Body) :
  length (p.place pos orn n w) = length w.
Proof.
  revert n. induction w as [|b w IH]; intros n; [reflexivity|].
  destruct n; cbn [p.place length]; [reflexivity|]. rewrite IH. reflexivity.
Qed.

Lemma place_newest (pos orn : ndarray) (w : list Body) (b : Body) :
  p.place pos orn (length w) (w ++ [b])
  = w ++ [{| urdf := urdf b; basePosition := pos; baseOrientation := orn |}].
Proof.
  induction w as [|x w IH]; [reflexivity|].
  cbn [length app p.place]. rewrite IH. reflexivity.
Qed.

(** Whatever [_addTarget] does to the marker, it stores the position, assigns
    [None] to the attribute [prev_], and leaves [prev_action] as it was. *)
Lemma addTarget_fields (K : Collaborators) (self self' : MyAviary)
      (position : ndarray) (visual : bool) :
  Py.returned (_addTarget K self position visual) = Some self' ->
  target_position self' = position
  /\ prev_ self' = Some None
  /\ prev_action self' = prev_action self.
Proof.
  unfold _addTarget. destruct visual.
  - cbn [target_ID set_prev_ set_target_position].
    destruct (not_ (target_ID self)).
    + cbn [Py.ret Py.returned]. intros H. injection H as <-. repeat split.
    + intros H. apply bind_returned in H. destruct H as (out & w & _ & H).
      cbn [Py.ret Py.returned] in H. injection H as <-. repeat split.
  - cbn [Py.ret Py.returned]. intros H. injection H as <-. repeat split.
Qed.

(** With [visual=True] the marker is created by the first call and moved by
    the next one: one body more in the world, the same id, the new position.
    (The world already holds the ground plane and the drone, so the id of the
    marker is not 0.) *)
Lemma addTarget_marker_created_once (K : Collaborators) (self : MyAviary)
      (first second : ndarray) :
  target_ID self = None ->
  world (base self) <> [] ->
  exists once twice,
    _addTarget K self first true = Py.Returns [] once
    /\ _addTarget K once second true = Py.Returns [] twice
    /\ target_ID once = Some (Z.of_nat (length (world (base self))))
    /\ target_ID twice = target_ID once
    /\ world (base once)
       = world (base self)
         ++ [{| urdf := "cube_small.urdf"; basePosition := first;
                baseOrientation := getQuaternionFromEuler K [0; 0; 0] |}]
    /\ world (base twice)
       = world (base self)
         ++ [{| urdf := "cube_small.urdf"; basePosition := second;
                baseOrientation := getQuaternionFromEuler K [0; 0; 0] |}]
    /\ target_position twice = second.
Proof.
  intros Hid Hworld.
  set (w := world (base self)) in *.
  set (q := getQuaternionFromEuler K [0; 0; 0]).
  assert (Hpos : (Z.of_nat (length w) =? 0)%Z = false).
  { apply Z.eqb_neq. destruct w; [contradiction|]. cbn [length]. lia. }
  assert (Hin : ((0 <=? Z.of_nat (length w))%Z
                 && (Z.of_nat (length w)
                     <? Z.of_nat (length (w ++ [{| urdf := "cube_small.urdf";
                                                   basePosition := first;
                                                   baseOrientation := q |}])))%Z)%bool
                = true).
  { rewrite length_app. cbn [length].
    apply andb_true_iff. split; [apply Z.leb_le|apply Z.ltb_lt]; lia. }
  eexists. eexists. split; [|split].
  - unfold _addTarget. cbn [target_ID set_prev_ set_target_position].
    rewrite Hid. cbn [not_]. reflexivity.
  - unfold _addTarget.
    cbn [target_ID set_prev_ set_target_position set_target_ID set_base base
         set_world world p.loadURDF fst snd not_].
    fold w. fold q. rewrite Hpos.
    unfold p.resetBasePositionAndOrientation. rewrite Hin.
    rewrite Nat2Z.id, place_newest. reflexivity.
  - cbn [target_ID set_target_ID set_base set_world base world
         target_position set_target_position set_prev_ p.loadURDF fst snd urdf].
    repeat split.
Qed.

(** C5 where the code departs from it.  [_addTarget] assigns [None] to an
    attribute named [prev_], which nothing reads; the attribute that
    [_computeReward] consumes is [prev_action], and it keeps the action that
    was stored: the next reward is computed against it. *)
Theorem addTarget_keeps_the_stored_action
        (K : Collaborators) (self : MyAviary) (position prev : ndarray)
        (visual : bool) :
  prev_action self = Some prev ->
  target_ID self = None ->
  exists self',
    _addTarget K self position visual = Py.Returns [] self'
    /\ target_position self' = position
    /\ prev_ self' = Some None
    /\ prev_action self' = Some prev
    /\ forall action_phys,
         code_da self' action_phys
         = spec_da (IZR (AGGR_PHY_STEPS (base self))) action_phys prev.
Proof.
  intros Hprev Hid.
  assert (Hrun : exists self', _addTarget K self position visual = Py.Returns [] self'
                               /\ AGGR_PHY_STEPS (base self')
                                  = AGGR_PHY_STEPS (base self)).
  { unfold _addTarget. destruct visual.
    - cbn [target_ID set_prev_ set_target_position]. rewrite Hid. cbn [not_].
      eexists. split; reflexivity.
    - eexists. split; reflexivity. }
  destruct Hrun as (self' & Hrun & Hsteps).
  exists self'. split; [exact Hrun|].
  destruct (addTarget_fields K self self' position visual) as (Ht & Hp & Ha).
  { rewrite Hrun. reflexivity. }
  rewrite Hprev in Ha.
  repeat split; try assumption.
  intros action_phys. unfold code_da. rewrite Ha, Hsteps. reflexivity.
Qed.

(** Witness: a new target for [hover_after_climb], which stored [1,1,1,1]. *)
Lemma addTarget_keeps_the_stored_action_witness :
  exists self',
    _addTarget level_hover hover_after_climb [1; 1; 1] false = Py.Returns [] self'
    /\ prev_action self' = Some [1; 1; 1; 1].
Proof.
  destruct (addTarget_keeps_the_stored_action level_hover hover_after_climb
              [1; 1; 1] [1; 1; 1; 1] false eq_refl eq_refl)
    as (self' & Hrun & _ & _ & Hprev & _).
  exists self'. split; assumption.
Defined.

(** * Further properties of the code *)

(** ** Arrays, continued *)

Lemma dot_self_nonneg (a : ndarray) : 0 <= np.dot a a.
Proof.
  induction a as [|x a IH]; unfold np.dot in *; cbn [np.zip_with fold_right];
    [lra|nra].
Qed.

Lemma norm_nonneg (a : ndarray) : 0 <= np.norm a.
Proof. unfold np.norm. apply sqrt_pos. Qed.

Lemma dot_scale (k : R) (a : ndarray) :
  np.dot (np.scale k a) (np.scale k a) = k * k * np.dot a a.
Proof.
  induction a as [|x a IH]; unfold np.dot, np.scale in *;
    cbn [map np.zip_with fold_right]; [lra|rewrite IH; lra].
Qed.

Lemma norm_scale (k : R) (a : ndarray) :
  np.norm (np.scale k a) = Rabs k * np.norm a.
Proof.
  unfold np.norm. rewrite dot_scale.
  rewrite sqrt_mult by (try apply dot_self_nonneg; nra).
  replace (k * k) with (Rsqr k) by reflexivity.
  rewrite sqrt_Rsqr_abs. reflexivity.
Qed.



Lemma add_same_length (a b : ndarray) :
  length a = length b -> np.add a b = Py.Returns [] (np.zip_with Rplus a b).
Proof.
  intros H. unfold np.add, np.broadcast. rewrite H, Nat.eqb_refl. reflexivity.
Qed.

Lemma scale_one (k : R) (a : ndarray) : k = 1 -> np.scale k a = a.
Proof.
  intros ->. induction a as [|x a IH]; [reflexivity|].
  unfold np.scale in *. cbn [map]. rewrite IH. f_equal. lra.
Qed.

(** ** Decoding motor speeds *)

Lemma preprocessAction_rpm_eval
      (K : Collaborators) (cls : Subclass) (self : MyAviary) (action : ndarray) :
  ACT_TYPE self = member RPM ->
  _preprocessAction K cls self action
  = Py.Returns []
      (self, Some (map (fun a => HOVER_RPM (base self) * (1 + 0.05 * a)) action)).
Proof. intros H. unfold _preprocessAction. rewrite H. reflexivity. Qed.

(** X2.  Under [ActionType.RPM], with a hover RPM that is not negative and
    every entry of the action in [-1,1], the command has one entry per entry
    of the action and each lies between 95% and 105% of hover RPM; no entry
    is negative. *)
Theorem rpm_decoding_stays_within_five_percent
        (K : Collaborators) (cls : Subclass) (self : MyAviary) (action : ndarray) :
  ACT_TYPE self = member RPM ->
  0 <= HOVER_RPM (base self) ->
  Forall (fun a => -1 <= a <= 1) action ->
  exists rpm,
    _preprocessAction K cls self action = Py.Returns [] (self, Some rpm)
    /\ length rpm = length action
    /\ Forall (fun r => 0.95 * HOVER_RPM (base self) <= r
                        <= 1.05 * HOVER_RPM (base self)) rpm
    /\ Forall (fun r => 0 <= r) rpm.
Proof.
  intros Hact Hh Hbox.
  eexists. split; [apply (preprocessAction_rpm_eval K cls self action Hact)|].
  split; [apply length_map|].
  split; rewrite Forall_map; eapply Forall_impl; try exact Hbox;
    cbv beta; intros a Ha; nra.
Qed.

Lemma rpm_decoding_stays_within_five_percent_witness :
  exists rpm,
    _preprocessAction level_hover plain_subclass first_tick_hovering
                      [1; -1; 0; 0.5]
    = Py.Returns [] (first_tick_hovering, Some rpm)
    /\ Forall (fun r => 0 <= r) rpm.
Proof.
  destruct (rpm_decoding_stays_within_five_percent level_hover plain_subclass
              first_tick_hovering [1; -1; 0; 0.5] eq_refl)
    as (rpm & Hrun & _ & _ & Hpos).
  - cbn [first_tick_hovering example_env base example_base HOVER_RPM].
    unfold hover_rpm_cf2x. lra.
  - repeat constructor; lra.
  - exists rpm. split; assumption.
Defined.

(** ** Reward, continued *)

Lemma spec_reward_at_most_two (pos target vel euler action_phys da : ndarray) :
  spec_reward pos target vel euler action_phys da <= 2.0.
Proof.
  unfold spec_reward.
  pose proof (norm_nonneg (np.minus pos target)).
  pose proof (norm_nonneg vel). pose proof (norm_nonneg euler).
  pose proof (norm_nonneg action_phys). pose proof (norm_nonneg da).
  lra.
Qed.

(** X3.  The reward never exceeds 2.0: on a 20-entry state, a 3-entry
    target, a 4-entry stored action if any, nonzero hover RPM and steps per
    call, [_computeReward] returns, prints nothing, and its value is at most
    2.0. *)
Theorem computeReward_at_most_two (self : MyAviary) :
  reward_shapes self ->
  HOVER_RPM (base self) <> 0 ->
  AGGR_PHY_STEPS (base self) <> 0%Z ->
  exists self' reward,
    _computeReward self = Py.Returns [] (self', reward) /\ reward <= 2.0.
Proof.
  intros Hshapes Hh Hs.
  do 2 eexists. split; [apply (computeReward_eval self Hshapes Hh Hs)|].
  apply spec_reward_at_most_two.
Qed.

Lemma computeReward_at_most_two_witness :
  exists self' reward,
    _computeReward first_tick_climbing = Py.Returns [] (self', reward)
    /\ reward <= 2.0.
Proof.
  apply (computeReward_at_most_two first_tick_climbing
           (conj eq_refl (conj eq_refl I))
           (example_hover_rpm_nonzero _ _ _) (example_steps_nonzero _ _ _)).
Defined.



(** ** Termination, continued *)

(** X5.  [_computeDone] looks at nothing but the magnitudes of the position
    and of the Euler angles: two 20-entry states whose entries 0, 1, 2, 7, 8
    and 9 agree in absolute value give the same answer, whatever their
    signs, quaternions, velocities and motor speeds (and whatever the step
    counter: no time limit applies). *)
Theorem computeDone_depends_on_magnitudes (self other : MyAviary) :
  length (state_vector (base self)) = 20%nat ->
  length (state_vector (base other)) = 20%nat ->
  (forall i, In i [0; 1; 2; 7; 8; 9]%nat ->
     Rabs (nth i (state_vector (base self)) 0)
     = Rabs (nth i (state_vector (base other)) 0)) ->
  _computeDone self = _computeDone other.
Proof.
  intros Hlen Hlen' Hsame.
  destruct (state_vector_entries _ Hlen)
    as (x & y & z & q0 & q1 & q2 & q3 & roll & pitch & yaw
        & vx & vy & vz & wx & wy & wz & m0 & m1 & m2 & m3 & E).
  destruct (state_vector_entries _ Hlen')
    as (x' & y' & z' & q0' & q1' & q2' & q3' & roll' & pitch' & yaw'
        & vx' & vy' & vz' & wx' & wy' & wz' & m0' & m1' & m2' & m3' & E').
  rewrite (computeDone_entries self _ _ _ _ _ _ _ _ _ _ _ _ _ _ _ _ _ _ _ _ E).
  rewrite (computeDone_entries other _ _ _ _ _ _ _ _ _ _ _ _ _ _ _ _ _ _ _ _ E').
  rewrite E, E' in Hsame.
  pose proof (Hsame 0%nat ltac:(cbn; tauto)) as H0.
  pose proof (Hsame 1%nat ltac:(cbn; tauto)) as H1.
  pose proof (Hsame 2%nat ltac:(cbn; tauto)) as H2.
  pose proof (Hsame 7%nat ltac:(cbn; tauto)) as H7.
  pose proof (Hsame 8%nat ltac:(cbn; tauto)) as H8.
  pose proof (Hsame 9%nat ltac:(cbn; tauto)) as H9.
  cbn [nth] in H0, H1, H2, H7, H8, H9.
  rewrite H0, H1, H2, H7, H8, H9. reflexivity.
Qed.

Lemma computeDone_depends_on_magnitudes_witness :
  _computeDone (example_env RPM None (example_state 0 0 0.5 hover_rpm_cf2x))
  = _computeDone (example_env VEL None (example_state 0 0 (-0.5) 0)).
Proof.
  apply computeDone_depends_on_magnitudes; [reflexivity|reflexivity|].
  intros i Hi.
  cbn [In] in Hi.
  destruct Hi as [<-|[<-|[<-|[<-|[<-|[<-|[]]]]]]];
    cbn [nth example_env base example_base state_vector example_state];
    try reflexivity.
  rewrite (Rabs_right 0.5), (Rabs_left (-0.5)) by lra. lra.
Defined.

(** ** The target, continued *)

(** [_addTarget] returns when it has no marker to move or a marker that the
    world holds, and then changes nothing that an observation or a reward
    reads but the target. *)
Lemma addTarget_returns (K : Collaborators) (self : MyAviary)
      (position : ndarray) (visual : bool) :
  (visual = true ->
   match target_ID self with
   | Some id => (0 <= id < Z.of_nat (length (world (base self))))%Z
   | None => True
   end) ->
  exists self',
    _addTarget K self position visual = Py.Returns [] self'
    /\ target_position self' = position
    /\ prev_action self' = prev_action self
    /\ OBS_TYPE self' = OBS_TYPE self
    /\ state_vector (base self') = state_vector (base self)
    /\ HOVER_RPM (base self') = HOVER_RPM (base self)
    /\ AGGR_PHY_STEPS (base self') = AGGR_PHY_STEPS (base self).
Proof.
  intros Hmarker. unfold _addTarget. destruct visual.
  - cbn [target_ID set_prev_ set_target_position base].
    destruct (not_ (target_ID self)) eqn:Hnot.
    + eexists. split; [reflexivity|]. repeat split.
    + destruct (target_ID self) as [id|]; [|discriminate Hnot].
      specialize (Hmarker eq_refl).
      unfold p.resetBasePositionAndOrientation.
      replace ((0 <=? id)%Z && (id <? Z.of_nat (length (world (base self))))%Z)%bool
        with true
        by (symmetry; apply andb_true_iff;
            split; [apply Z.leb_le|apply Z.ltb_lt]; lia).
      eexists. split; [reflexivity|]. repeat split.
  - eexists. split; [reflexivity|]. repeat split.
Qed.

(** X6.  A 3-entry target stored by [_addTarget], with or without the visual
    marker (no marker yet, or a marker that the world holds), is the one the
    next observation and the next reward are computed against: the
    kinematic observation starts with position - current position for the
    new position, and the position error of the reward is the distance to
    it. *)
Theorem addTarget_then_observe_and_reward
        (K : Collaborators) (self : MyAviary) (position : ndarray)
        (visual : bool) :
  (visual = true ->
   match target_ID self with
   | Some id => (0 <= id < Z.of_nat (length (world (base self))))%Z
   | None => True
   end) ->
  OBS_TYPE self = member KIN ->
  length (state_vector (base self)) = 20%nat ->
  length position = 3%nat ->
  match prev_action self with Some prev => length prev = 4%nat | None => True end ->
  HOVER_RPM (base self) <> 0 ->
  AGGR_PHY_STEPS (base self) <> 0%Z ->
  let s := state_vector (base self) in
  let a := spec_action_phys (HOVER_RPM (base self)) (np.slice_from 16 s) in
  exists self',
    _addTarget K self position visual = Py.Returns [] self'
    /\ (exists v,
           _computeObs K self' = Py.Returns [] (self', Some (vector v))
           /\ firstn 3 v = np.minus position (np.slice 0 3 s))
    /\ _computeReward self'
       = Py.Returns []
           (set_prev_action (Some a) self',
            spec_reward (np.slice 0 3 s) position (np.slice 10 13 s)
                        (np.slice 7 10 s) a (code_da self a)).
Proof.
  intros Hmarker Hobs Hlen Hpos Hprev Hh Hs s a.
  destruct (addTarget_returns K self position visual Hmarker)
    as (self' & Hrun & Ht & Hp & Ho & Hst & Hhov & Hstep).
  exists self'. split; [exact Hrun|].
  assert (Hobs' : OBS_TYPE self' = member KIN) by congruence.
  assert (Hlen' : length (state_vector (base self')) = 20%nat) by congruence.
  assert (Hpos' : length (target_position self') = 3%nat) by congruence.
  split.
  - destruct (computeObs_kin_eval K self' Hobs' Hlen' Hpos') as (Hrun' & _ & _).
    eexists. split; [exact Hrun'|].
    rewrite Ht, Hst. fold s.
    destruct (state_vector_entries _ Hlen)
      as (x & y & z & q0 & q1 & q2 & q3 & roll & pitch & yaw
          & vx & vy & vz & wx & wy & wz & m0 & m1 & m2 & m3 & E).
    destruct position as [|t0 [|t1 [|t2 [|? ?]]]]; try discriminate Hpos.
    unfold s. rewrite E. reflexivity.
  - assert (Hshapes : reward_shapes self').
    { unfold reward_shapes. rewrite Hp. repeat split; assumption. }
    assert (Hh' : HOVER_RPM (base self') <> 0) by congruence.
    assert (Hs' : AGGR_PHY_STEPS (base self') <> 0%Z) by congruence.
    pose proof (computeReward_eval self' Hshapes Hh' Hs') as Hr.
    cbv zeta in Hr. rewrite Hst, Hhov, Ht in Hr. fold s in Hr. fold a in Hr.
    replace (code_da self' a) with (code_da self a) in Hr
      by (unfold code_da; rewrite Hp, Hstep; reflexivity).
    exact Hr.
Qed.

Lemma addTarget_then_observe_and_reward_witness :
  exists self' v,
    _addTarget level_hover first_tick_hovering [1; 2; 3] true
    = Py.Returns [] self'
    /\ _computeObs level_hover self' = Py.Returns [] (self', Some (vector v))
    /\ firstn 3 v = [1 - 0; 2 - 0; 3 - 1].
Proof.
  destruct (addTarget_then_observe_and_reward level_hover first_tick_hovering
              [1; 2; 3] true (fun _ => I) eq_refl eq_refl eq_refl I
              (example_hover_rpm_nonzero _ _ _) (example_steps_nonzero _ _ _))
    as (self' & Hset & (v & Hobs & Hfirst) & _).
  exists self', v. repeat split; assumption.
Defined.

(** X7.  With [visual=True], on a world that already holds a body,
    repeating [_addTarget] with the same position changes nothing: the
    second call returns the environment of the first. *)
Theorem addTarget_again_changes_nothing
        (K : Collaborators) (self : MyAviary) (position : ndarray) :
  target_ID self = None ->
  world (base self) <> [] ->
  exists once,
    _addTarget K self position true = Py.Returns [] once
    /\ _addTarget K once position true = Py.Returns [] once
    /\ length (world (base once)) = S (length (world (base self))).
Proof.
  intros Hid Hworld.
  set (w := world (base self)) in *.
  set (q := getQuaternionFromEuler K [0; 0; 0]).
  assert (Hpos : (Z.of_nat (length w) =? 0)%Z = false).
  { apply Z.eqb_neq. destruct w; [contradiction|]. cbn [length]. lia. }
  assert (Hin : ((0 <=? Z.of_nat (length w))%Z
                 && (Z.of_nat (length w)
                     <? Z.of_nat (length (w ++ [{| urdf := "cube_small.urdf";
                                                   basePosition := position;
                                                   baseOrientation := q |}])))%Z)%bool
                = true).
  { rewrite length_app. cbn [length].
    apply andb_true_iff. split; [apply Z.leb_le|apply Z.ltb_lt]; lia. }
  eexists. split; [|split].
  - unfold _addTarget. cbn [target_ID set_prev_ set_target_position].
    rewrite Hid. cbn [not_]. reflexivity.
  - unfold _addTarget.
    cbn [target_ID set_prev_ set_target_position set_target_ID set_base base
         set_world world p.loadURDF fst snd not_].
    fold w. fold q. rewrite Hpos.
    unfold p.resetBasePositionAndOrientation. rewrite Hin.
    rewrite Nat2Z.id, place_newest. reflexivity.
  - cbn [set_target_ID set_base set_world base world p.loadURDF fst
         set_prev_ set_target_position].
    fold w. rewrite length_app. cbn [length]. lia.
Qed.

Lemma addTarget_again_changes_nothing_witness :
  exists once,
    _addTarget level_hover first_tick_hovering [1; 1; 1] true = Py.Returns [] once
    /\ _addTarget level_hover once [1; 1; 1] true = Py.Returns [] once
    /\ length (world (base once)) = 3%nat.
Proof.
  destruct (addTarget_again_changes_nothing level_hover first_tick_hovering
              [1; 1; 1] eq_refl ltac:(discriminate))
    as (once & Hfirst & Hsecond & Hlen).
  exists once. repeat split; assumption.
Defined.

(** X8.  [_addTarget] takes a marker whose id is 0 for no marker (the test
    is [not self.target_ID]): with [visual=True] it then loads another
    marker instead of moving the one it has, keeps every body of the world
    where it was, and stores the id of the new one. *)
Theorem addTarget_marker_zero_is_loaded_again
        (K : Collaborators) (self : MyAviary) (position : ndarray) :
  target_ID self = Some 0%Z ->
  exists self',
    _addTarget K self position true = Py.Returns [] self'
    /\ world (base self')
       = world (base self)
         ++ [{| urdf := "cube_small.urdf"; basePosition := position;
                baseOrientation := getQuaternionFromEuler K [0; 0; 0] |}]
    /\ target_ID self' = Some (Z.of_nat (length (world (base self)))).
Proof.
  intros Hid. eexists. split; [|split].
  - unfold _addTarget. cbn [target_ID set_prev_ set_target_position].
    rewrite Hid. cbn [not_ Z.eqb]. reflexivity.
  - reflexivity.
  - reflexivity.
Qed.

(** On a world without bodies the first marker gets the id 0, and the next
    call loads a second marker. *)
Lemma addTarget_marker_zero_is_loaded_again_witness :
  exists once twice,
    _addTarget level_hover bare_world_env [1; 1; 1] true = Py.Returns [] once
    /\ target_ID once = Some 0%Z
    /\ _addTarget level_hover once [2; 2; 2] true = Py.Returns [] twice
    /\ length (world (base twice)) = 2%nat.
Proof.
  assert (Hfirst : exists once,
             _addTarget level_hover bare_world_env [1; 1; 1] true
             = Py.Returns [] once
             /\ target_ID once = Some 0%Z
             /\ length (world (base once)) = 1%nat)
    by (eexists; repeat split; reflexivity).
  destruct Hfirst as (once & Hfirst & Hid & Hone).
  destruct (addTarget_marker_zero_is_loaded_again level_hover once
              [2; 2; 2] Hid) as (twice & Hrun & Hworld & _).
  exists once, twice. repeat split; try assumption.
  rewrite Hworld, length_app, Hone. reflexivity.
Defined.

(** ** Decoding, continued *)

(** [ActionType.PID] on a 3-entry action: the controller is called with the
    measured state and the displaced position, and its first result is the
    command. *)
Lemma preprocessAction_pid_eval
      (K : Collaborators) (cls : Subclass) (self : MyAviary)
      (c : Controller) (action : ndarray) :
  ACT_TYPE self = member PID ->
  ctrl self = Some c ->
  length (state_vector (base self)) = 20%nat ->
  length action = 3%nat ->
  let s := state_vector (base self) in
  let called :=
    computeControl K c
      {| cc_control_timestep := control_timestep self;
         cc_cur_pos := np.slice 0 3 s;
         cc_cur_quat := np.slice 3 7 s;
         cc_cur_vel := np.slice 10 13 s;
         cc_cur_ang_vel := np.slice 13 16 s;
         cc_target_pos := np.zip_with Rplus (np.slice 0 3 s) (np.scale 0.1 action);
         cc_target_rpy := None;
         cc_target_vel := None |} in
  _preprocessAction K cls self action
  = Py.Returns [] (set_ctrl (snd called) self, Some (fst (fst (fst called)))).
Proof.
  intros Hact Hctrl Hlen Hact3 s called.
  unfold _preprocessAction. rewrite Hact, Hctrl.
  cbn [is_act ActionType_eqb Py.getattr]. rewrite bind_ret_l.
  unfold _getDroneStateVector. fold s.
  rewrite add_same_length, bind_returns_nil; [reflexivity|].
  destruct (state_vector_entries _ Hlen)
    as (x & y & z & q0 & q1 & q2 & q3 & roll & pitch & yaw
        & vx & vy & vz & wx & wy & wz & m0 & m1 & m2 & m3 & E).
  unfold s, np.scale. rewrite E, length_map, Hact3. reflexivity.
Qed.

(** X9.  Decoding [[a]] under [ActionType.ONE_D_PID] calls the position
    controller [computeControl] with exactly the arguments with which
    decoding [[0,0,a]] under [ActionType.PID] calls it (same state, same
    controller), and returns its first result as the command: the measured
    state, and a target that keeps the measured x and y and is 0.1*a above
    the measured z. *)
Theorem one_d_pid_agrees_with_pid
        (K : Collaborators) (cls : Subclass) (one_d three_d : MyAviary)
        (c : Controller) (a : R) :
  ACT_TYPE one_d = member ONE_D_PID ->
  ACT_TYPE three_d = member PID ->
  base one_d = base three_d ->
  ctrl one_d = Some c ->
  ctrl three_d = Some c ->
  length (state_vector (base three_d)) = 20%nat ->
  let s := state_vector (base three_d) in
  let called :=
    computeControl K c
      {| cc_control_timestep := control_timestep three_d;
         cc_cur_pos := np.slice 0 3 s;
         cc_cur_quat := np.slice 3 7 s;
         cc_cur_vel := np.slice 10 13 s;
         cc_cur_ang_vel := np.slice 13 16 s;
         cc_target_pos := [nth 0 s 0; nth 1 s 0; nth 2 s 0 + 0.1 * a];
         cc_target_rpy := None;
         cc_target_vel := None |} in
  _preprocessAction K cls one_d [a]
  = Py.Returns [] (set_ctrl (snd called) one_d, Some (fst (fst (fst called))))
  /\ _preprocessAction K cls three_d [0; 0; a]
     = Py.Returns []
         (set_ctrl (snd called) three_d, Some (fst (fst (fst called)))).
Proof.
  intros Hone Hthree Hbase Hc1 Hc3 Hlen s called.
  destruct (state_vector_entries _ Hlen)
    as (x & y & z & q0 & q1 & q2 & q3 & roll & pitch & yaw
        & vx & vy & vz & wx & wy & wz & m0 & m1 & m2 & m3 & E).
  assert (Htarget : np.zip_with Rplus (np.slice 0 3 s) (np.scale 0.1 [0; 0; a])
                    = [nth 0 s 0; nth 1 s 0; nth 2 s 0 + 0.1 * a]).
  { unfold s. rewrite E.
    cbn [np.slice Nat.sub skipn firstn np.scale map np.zip_with nth].
    entries. }
  split.
  - unfold _preprocessAction. rewrite Hone, Hc1.
    cbn [is_act ActionType_eqb Py.getattr np.getitem nth_error].
    rewrite !bind_ret_l. unfold _getDroneStateVector, control_timestep.
    rewrite Hbase. fold s.
    rewrite add_same_length, bind_returns_nil
      by (unfold s; rewrite E; reflexivity).
    rewrite Htarget. reflexivity.
  - rewrite (preprocessAction_pid_eval K cls three_d c [0; 0; a]
               Hthree Hc3 Hlen eq_refl).
    fold s. rewrite Htarget. reflexivity.
Qed.

Lemma one_d_pid_agrees_with_pid_witness :
  exists args,
    _preprocessAction level_hover plain_subclass (equipped_env ONE_D_PID) [1]
    = Py.Returns []
        (set_ctrl (snd (computeControl level_hover (DSLPIDControl CF2X) args))
                  (equipped_env ONE_D_PID),
         Some (fst (fst (fst (computeControl level_hover
                                (DSLPIDControl CF2X) args)))))
    /\ cc_target_pos args = [0; 0; 1 + 0.1 * 1].
Proof.
  destruct (one_d_pid_agrees_with_pid level_hover plain_subclass
              (equipped_env ONE_D_PID) (equipped_env PID) (DSLPIDControl CF2X) 1
              eq_refl eq_refl eq_refl eq_refl eq_refl eq_refl)
    as (Hone & _).
  eexists. split; [exact Hone|reflexivity].
Defined.

(** X10.  Decoding [[a]] under [ActionType.ONE_D_DYN] asks the RPM solver for
    what decoding [[0.05*a, 0, 0, 0]] under [ActionType.DYN] asks for: the
    thrust gravity*(1 + 0.05*a) and no torque.  The one-dimensional thrust is
    scaled by 0.05, the four-dimensional one is not. *)
Theorem one_d_dyn_agrees_with_scaled_dyn
        (K : Collaborators) (cls : Subclass) (one_d four_d : MyAviary) (a : R) :
  ACT_TYPE one_d = member ONE_D_DYN ->
  ACT_TYPE four_d = member DYN ->
  base one_d = base four_d ->
  let request :=
    nnls_for four_d (GRAVITY (base four_d) * (1 + 0.05 * a)) 0 0 0 in
  _preprocessAction K cls one_d [a]
  = Py.Returns [] (one_d, Some (nnlsRPM K request))
  /\ _preprocessAction K cls four_d [0.05 * a; 0; 0; 0]
     = Py.Returns [] (four_d, Some (nnlsRPM K request))
  /\ _preprocessAction K cls four_d [a; 0; 0; 0]
     = Py.Returns []
         (four_d,
          Some (nnlsRPM K (nnls_for four_d (GRAVITY (base four_d) * (a + 1))
                                    0 0 0))).
Proof.
  intros Hone Hfour Hbase request. unfold request, _preprocessAction, nnls_for.
  rewrite Hone, Hfour, Hbase.
  cbn [is_act ActionType_eqb np.getitem nth_error].
  rewrite !bind_ret_l. unfold Py.ret.
  repeat split; do 4 f_equal; f_equal; lra.
Qed.

Lemma one_d_dyn_agrees_with_scaled_dyn_witness :
  exists rpm,
    _preprocessAction level_hover plain_subclass (equipped_env ONE_D_DYN) [1]
    = Py.Returns [] (equipped_env ONE_D_DYN, Some rpm)
    /\ _preprocessAction level_hover plain_subclass (equipped_env DYN)
         [0.05 * 1; 0; 0; 0]
       = Py.Returns [] (equipped_env DYN, Some rpm).
Proof.
  destruct (one_d_dyn_agrees_with_scaled_dyn level_hover plain_subclass
              (equipped_env ONE_D_DYN) (equipped_env DYN) 1
              eq_refl eq_refl eq_refl)
    as (Hone & Hfour & _).
  eexists. split; [exact Hone|exact Hfour].
Defined.

Lemma norm_divided (v : ndarray) (n : R) :
  np.norm (map (fun x => x / n) v) = np.norm v / Rabs n.
Proof.
  replace (map (fun x => x / n) v) with (np.scale (/ n) v)
    by (unfold np.scale; apply map_ext; intros x; unfold Rdiv; lra).
  rewrite norm_scale, Rabs_inv. unfold Rdiv. lra.
Qed.

Lemma v_unit_vector_nonzero (K : Collaborators) (action : ndarray) :
  linalg_norm K (np.slice 0 3 action) <> 0 ->
  v_unit_vector K action
  = Py.Returns []
      (map (fun x => x / linalg_norm K (np.slice 0 3 action))
           (np.slice 0 3 action)).
Proof.
  intros Hn. unfold v_unit_vector, np.ne, np.divide.
  destruct (Req_dec_T (linalg_norm K (np.slice 0 3 action)) 0); [contradiction|].
  reflexivity.
Qed.

(** X11.  Under [ActionType.VEL], when the norm n that numpy computes for the
    first three entries of a 4-entry action is not zero, [computeControl] is
    called to hold the measured position and yaw with the target velocity
    SPEED_LIMIT*|action[3]|*action[0:3]/n, and its first result is the
    command.  The magnitude of that velocity is
    |SPEED_LIMIT|*|action[3]|*|action[0:3]|/|n|: it is
    |SPEED_LIMIT|*|action[3]|, hence at most |SPEED_LIMIT| for
    |action[3]| <= 1, when the computed norm is the exact one. *)
Theorem preprocessAction_vel_speed
        (K : Collaborators) (cls : Subclass) (self : MyAviary)
        (action : ndarray) (c : Controller) (limit : R) :
  ACT_TYPE self = member VEL ->
  ctrl self = Some c ->
  SPEED_LIMIT self = Some limit ->
  length (state_vector (base self)) = 20%nat ->
  length action = 4%nat ->
  linalg_norm K (np.slice 0 3 action) <> 0 ->
  let s := state_vector (base self) in
  let n := linalg_norm K (np.slice 0 3 action) in
  let velocity :=
    np.scale (limit * Rabs (nth 3 action 0))
             (map (fun x => x / n) (np.slice 0 3 action)) in
  let called :=
    computeControl K c
      {| cc_control_timestep := control_timestep self;
         cc_cur_pos := np.slice 0 3 s;
         cc_cur_quat := np.slice 3 7 s;
         cc_cur_vel := np.slice 10 13 s;
         cc_cur_ang_vel := np.slice 13 16 s;
         cc_target_pos := np.slice 0 3 s;
         cc_target_rpy := Some [0; 0; nth 9 s 0];
         cc_target_vel := Some velocity |} in
  _preprocessAction K cls self action
  = Py.Returns [] (set_ctrl (snd called) self, Some (fst (fst (fst called))))
  /\ np.norm velocity
     = Rabs limit * Rabs (nth 3 action 0)
       * (np.norm (np.slice 0 3 action) / Rabs n)
  /\ (n = np.norm (np.slice 0 3 action) ->
      np.norm velocity = Rabs limit * Rabs (nth 3 action 0)
      /\ (Rabs (nth 3 action 0) <= 1 -> np.norm velocity <= Rabs limit)).
Proof.
  intros Hact Hctrl Hlim Hlen Hact4 Hnorm s n velocity called.
  destruct (state_vector_entries _ Hlen)
    as (x & y & z & q0 & q1 & q2 & q3 & roll & pitch & yaw
        & vx & vy & vz & wx & wy & wz & m0 & m1 & m2 & m3 & E).
  assert (Hyaw : np.getitem (state_vector (base self)) 9
                 = Py.ret (nth 9 (state_vector (base self)) 0))
    by (rewrite E; reflexivity).
  assert (H3 : np.getitem action 3 = Py.ret (nth 3 action 0)).
  { destruct action as [|a0 [|a1 [|a2 [|a3 [|? ?]]]]]; try discriminate Hact4.
    reflexivity. }
  assert (Hsize : np.norm velocity
                  = Rabs limit * Rabs (nth 3 action 0)
                    * (np.norm (np.slice 0 3 action) / Rabs n)).
  { unfold velocity. rewrite norm_scale, norm_divided.
    rewrite Rabs_mult, Rabs_Rabsolu. lra. }
  split; [|split].
  - unfold _preprocessAction. rewrite Hact. cbn [is_act ActionType_eqb].
    rewrite (v_unit_vector_nonzero K _ Hnorm), Hctrl, Hlim.
    unfold _getDroneStateVector. rewrite Hyaw, H3.
    cbn [Py.getattr]. rewrite bind_returns_nil, !bind_ret_l. reflexivity.
  - exact Hsize.
  - intros Hexact.
    assert (Hpos : 0 < np.norm (np.slice 0 3 action)).
    { pose proof (norm_nonneg (np.slice 0 3 action)).
      unfold n in Hexact. rewrite <- Hexact.
      destruct (Rtotal_order 0 n) as [?|[Hz|?]];
        [assumption|unfold n in Hz; congruence|unfold n in *; lra]. }
    assert (Hone : np.norm velocity = Rabs limit * Rabs (nth 3 action 0)).
    { rewrite Hsize, Hexact, (Rabs_right (np.norm _)) by lra.
      field. lra. }
    split; [exact Hone|].
    intros Hbox. rewrite Hone. pose proof (Rabs_pos limit). nra.
Qed.

Lemma preprocessAction_vel_speed_witness :
  exists velocity,
    (exists args,
        _preprocessAction level_hover plain_subclass (equipped_env VEL)
                          [3; 0; 4; 0.5]
        = Py.Returns []
            (set_ctrl (snd (computeControl level_hover (DSLPIDControl CF2X) args))
                      (equipped_env VEL),
             Some (fst (fst (fst (computeControl level_hover
                                    (DSLPIDControl CF2X) args)))))
        /\ cc_target_vel args = Some velocity)
    /\ np.norm velocity = Rabs (0.03 * 30 * (1000 / 3600)) * Rabs 0.5.
Proof.
  assert (Hn : linalg_norm level_hover (np.slice 0 3 [3; 0; 4; 0.5]) <> 0).
  { cbn [linalg_norm level_hover]. unfold np.norm, np.dot.
    cbn [np.slice Nat.sub skipn firstn np.zip_with fold_right].
    replace (3 * 3 + (0 * 0 + (4 * 4 + 0))) with (Rsqr 5) by (unfold Rsqr; lra).
    rewrite sqrt_Rsqr; lra. }
  destruct (preprocessAction_vel_speed level_hover plain_subclass
              (equipped_env VEL) [3; 0; 4; 0.5] (DSLPIDControl CF2X)
              (0.03 * 30 * (1000 / 3600))
              eq_refl eq_refl eq_refl eq_refl eq_refl Hn)
    as (Hrun & _ & Hexact).
  destruct (Hexact eq_refl) as (Hsize & _).
  eexists. split; [eexists; split; [exact Hrun|reflexivity]|exact Hsize].
Defined.




(** X13.  Under [ActionType.PID] the width of the action is not checked: a
    1-entry action is spread by numpy over the three axes, so that
    [computeControl] is called with the measured position moved by 0.1*a
    along x, y and z alike as its target, and an action of 0, 2 or more than
    3 entries stops the decoding with a [ValueError]. *)
Theorem preprocessAction_pid_other_widths
        (K : Collaborators) (cls : Subclass) (self : MyAviary)
        (c : Controller) :
  ACT_TYPE self = member PID ->
  ctrl self = Some c ->
  length (state_vector (base self)) = 20%nat ->
  let s := state_vector (base self) in
  (forall a,
      let called :=
        computeControl K c
          {| cc_control_timestep := control_timestep self;
             cc_cur_pos := np.slice 0 3 s;
             cc_cur_quat := np.slice 3 7 s;
             cc_cur_vel := np.slice 10 13 s;
             cc_cur_ang_vel := np.slice 13 16 s;
             cc_target_pos :=
               [nth 0 s 0 + 0.1 * a; nth 1 s 0 + 0.1 * a; nth 2 s 0 + 0.1 * a];
             cc_target_rpy := None;
             cc_target_vel := None |} in
      _preprocessAction K cls self [a]
      = Py.Returns []
          (set_ctrl (snd called) self, Some (fst (fst (fst called)))))
  /\ (forall action,
         length action <> 1%nat -> length action <> 3%nat ->
         _preprocessAction K cls self action
         = Py.Raises [] "ValueError: operands could not be broadcast together").
Proof.
  intros Hact Hctrl Hlen s.
  destruct (state_vector_entries _ Hlen)
    as (x & y & z & q0 & q1 & q2 & q3 & roll & pitch & yaw
        & vx & vy & vz & wx & wy & wz & m0 & m1 & m2 & m3 & E).
  split.
  - intros a called.
    assert (Hadd : np.add (np.slice 0 3 s) (np.scale 0.1 [a])
                   = Py.Returns []
                       [nth 0 s 0 + 0.1 * a; nth 1 s 0 + 0.1 * a;
                        nth 2 s 0 + 0.1 * a])
      by (unfold s; rewrite E; reflexivity).
    unfold _preprocessAction. rewrite Hact, Hctrl.
    cbn [is_act ActionType_eqb Py.getattr]. rewrite bind_ret_l.
    unfold _getDroneStateVector. fold s. rewrite Hadd, bind_returns_nil.
    reflexivity.
  - intros action H1 H3.
    assert (Hadd : np.add (np.slice 0 3 s) (np.scale 0.1 action)
                   = Py.Raises [] "ValueError: operands could not be broadcast together").
    { unfold s. rewrite E.
      destruct action as [|a0 [|a1 [|a2 [|a3 rest]]]];
        cbn [length] in H1, H3; try lia; reflexivity. }
    unfold _preprocessAction. rewrite Hact, Hctrl.
    cbn [is_act ActionType_eqb Py.getattr]. rewrite bind_ret_l.
    unfold _getDroneStateVector. fold s. rewrite Hadd. reflexivity.
Qed.

Lemma preprocessAction_pid_other_widths_witness :
  _preprocessAction level_hover plain_subclass (equipped_env PID) [1; 1]
  = Py.Raises [] "ValueError: operands could not be broadcast together".
Proof.
  destruct (preprocessAction_pid_other_widths level_hover plain_subclass
              (equipped_env PID) (DSLPIDControl CF2X) eq_refl eq_refl eq_refl)
    as (_ & Hother).
  apply Hother; discriminate.
Defined.

(** X14.  Under [ActionType.TUN] the zero action hands the controller
    exactly the six reference gain groups, and the command is what the
    subclass's [_trajectoryTrackingRPMs] returns on the environment with the
    controller so tuned; an action of fewer than 6 entries stops the
    decoding with an [IndexError]. *)
Theorem preprocessAction_tun_zero_action
        (K : Collaborators) (cls : Subclass) (self : MyAviary)
        (c : Controller) (g : TunedGains)
        (track : MyAviary -> MyAviary * ndarray) :
  ACT_TYPE self = member TUN ->
  ctrl self = Some c ->
  TUNED self = Some g ->
  _trajectoryTrackingRPMs cls = Some track ->
  let tuned :=
    set_ctrl (setPIDCoefficients K c
                {| p_coeff_pos := TUNED_P_POS g;
                   i_coeff_pos := TUNED_I_POS g;
                   d_coeff_pos := TUNED_D_POS g;
                   p_coeff_att := TUNED_P_ATT g;
                   i_coeff_att := TUNED_I_ATT g;
                   d_coeff_att := TUNED_D_ATT g |}) self in
  _preprocessAction K cls self (np.zeros 6)
  = Py.Returns [] (fst (track tuned), Some (snd (track tuned)))
  /\ (forall action, (length action < 6)%nat ->
        _preprocessAction K cls self action = Py.Raises [] "IndexError").
Proof.
  intros Hact Hctrl Hgains Htrack tuned. split.
  - unfold _preprocessAction. rewrite Hact, Hctrl, Hgains, Htrack.
    cbn [is_act ActionType_eqb Py.getattr np.zeros repeat np.getitem nth_error].
    rewrite !bind_ret_l.
    rewrite !(scale_one (0 + 1)) by lra. reflexivity.
  - intros action Hshort.
    unfold _preprocessAction. rewrite Hact, Hctrl, Hgains.
    destruct action as [|a0 [|a1 [|a2 [|a3 [|a4 [|a5 rest]]]]]];
      cbn [length] in Hshort; try lia; reflexivity.
Qed.

Lemma preprocessAction_tun_zero_action_witness :
  exists rpm,
    _preprocessAction level_hover tracking_subclass (equipped_env TUN)
                      (np.zeros 6)
    = Py.Returns [] (equipped_env TUN, Some rpm).
Proof.
  destruct (preprocessAction_tun_zero_action level_hover tracking_subclass
              (equipped_env TUN) (DSLPIDControl CF2X) cf2_gains
              (fun self => (self, np.scale hover_rpm_cf2x (np.ones 4)))
              eq_refl eq_refl eq_refl eq_refl)
    as (Hzero & _).
  eexists. rewrite Hzero. reflexivity.
Defined.

(** ** Construction, continued *)

(** X15.  When the base-class constructor returns and the environment is not
    an [ActionType.TUN] one without [_trajectoryTrackingRPMs], [__init__]
    returns an environment whose target is the first initial position and
    which has no stored action and no marker.  It has a controller exactly
    when the action type is closed-loop and the airframe is CF2X, CF2P or
    HB (a [DSLPIDControl] for CF2X in the first two cases, a
    [SimplePIDControl] for HB in the third), reference gains exactly when in
    addition the action type is TUN, and a speed limit exactly when the
    action type is VEL. *)
Theorem init_attributes
        (K : Collaborators) (cls : Subclass) (a : init_args)
        (out : list string) (b : BaseAviary) (row : ndarray) :
  BaseAviary_init K (super_args a) = Py.Returns out b ->
  nth_error (INIT_XYZS b) 0 = Some row ->
  (is_act (act a) TUN && negb (has_trajectoryTrackingRPMs cls))%bool = false ->
  exists printed self,
    __init__ K cls a = Py.Returns printed self
    /\ base self = b
    /\ target_position self = row
    /\ prev_action self = None
    /\ target_ID self = None
    /\ (ctrl self <> None <->
        act_in (act a) [PID; VEL; TUN; THR; ONE_D_PID] = true
        /\ model_in (drone_model a) [CF2X; CF2P; HB] = true)
    /\ (forall c, ctrl self = Some c ->
          c = if is_model (drone_model a) HB
              then SimplePIDControl HB else DSLPIDControl CF2X)
    /\ (TUNED self <> None <->
        is_act (act a) TUN = true
        /\ model_in (drone_model a) [CF2X; CF2P; HB] = true)
    /\ (SPEED_LIMIT self <> None <-> is_act (act a) VEL = true).
Proof.
  intros Hbase Hrow Htun.
  unfold __init__, create_integrated_controllers.
  destruct (act a) as [[]|r] eqn:Hact; destruct (drone_model a) as [| | |m];
    cbn [act_in existsb is_act ActionType_eqb orb model_in is_model
         Py.bind Py.ret Py.print app] in Htun |- *;
    rewrite Hbase;
    cbn [Py.bind Py.ret Py.print app andb negb] in Htun |- *;
    try rewrite Htun; rewrite Hrow;
    cbn [Py.bind Py.ret Py.print Py.exit app fst snd];
    do 2 eexists; (split; [reflexivity|]);
    cbn [base target_position prev_action target_ID ctrl TUNED SPEED_LIMIT];
    repeat split; try congruence; try discriminate;
    try (intros [H1 H2]; discriminate);
    try (intros H; exfalso; apply H; reflexivity);
    try (intros c H; injection H as <-; reflexivity).
Qed.

Lemma init_attributes_witness :
  exists printed self,
    __init__ level_hover plain_subclass (example_args HB (member VEL))
    = Py.Returns printed self
    /\ ctrl self = Some (SimplePIDControl HB)
    /\ SPEED_LIMIT self <> None.
Proof.
  destruct (init_attributes level_hover plain_subclass
              (example_args HB (member VEL)) []
              (example_base (example_state 0 0 1 hover_rpm_cf2x)) [0; 0; 1]
              eq_refl eq_refl eq_refl)
    as (printed & self & Hrun & _ & _ & _ & _ & Hctrl & Hclass & _ & Hspeed).
  exists printed, self. split; [exact Hrun|]. split.
  - destruct (ctrl self) as [c|] eqn:Hc.
    + rewrite (Hclass c eq_refl). reflexivity.
    + exfalso. apply Hctrl; [split; reflexivity|reflexivity].
  - apply Hspeed. reflexivity.
Defined.

(** X16.  Once the base-class constructor has returned and there is a first
    initial position, [__init__] itself ends the process in one case only:
    [ActionType.TUN] on a class without [_trajectoryTrackingRPMs]; the last
    line printed is then the message that says so.  In every other case it
    returns. *)
Theorem init_exits_only_for_tun_without_tracking
        (K : Collaborators) (cls : Subclass) (a : init_args)
        (out : list string) (b : BaseAviary) (row : ndarray) :
  BaseAviary_init K (super_args a) = Py.Returns out b ->
  nth_error (INIT_XYZS b) 0 = Some row ->
  ((exists printed, __init__ K cls a = Py.Exits printed)
   <-> is_act (act a) TUN = true /\ _trajectoryTrackingRPMs cls = None)
  /\ (forall printed, __init__ K cls a = Py.Exits printed ->
        last printed ""%string = no_tracking_message)
  /\ (forall printed exn, __init__ K cls a <> Py.Raises printed exn).
Proof.
  intros Hbase Hrow.
  unfold __init__, create_integrated_controllers, has_trajectoryTrackingRPMs.
  destruct (_trajectoryTrackingRPMs cls) as [track|];
    destruct (act a) as [[]|r] eqn:Hact; destruct (drone_model a) as [| | |m];
    cbn [act_in existsb is_act ActionType_eqb orb model_in is_model
         Py.bind Py.ret Py.print app];
    rewrite Hbase;
    cbn [Py.bind Py.ret Py.print app andb negb]; try rewrite Hrow;
    cbn [Py.bind Py.ret Py.print Py.exit app fst snd];
    (split; [first [ split; [intros [printed H]; discriminate H
                            |intros [H1 H2]; discriminate]
                   | split; [intros _; split; reflexivity
                            |intros _; eexists; reflexivity] ]
            |split; [intros printed H; try discriminate H;
                     injection H as <-; rewrite ?app_comm_cons, last_last;
                     reflexivity
                    |intros printed exn H; discriminate H]]).
Qed.

Lemma init_exits_only_for_tun_without_tracking_witness :
  (exists printed,
      __init__ level_hover plain_subclass (example_args CF2X (member TUN))
      = Py.Exits printed)
  /\ exists self,
       __init__ level_hover tracking_subclass (example_args CF2X (member TUN))
       = Py.Returns [] self.
Proof.
  split.
  - destruct (init_exits_only_for_tun_without_tracking level_hover plain_subclass
                (example_args CF2X (member TUN)) []
                (example_base (example_state 0 0 1 hover_rpm_cf2x)) [0; 0; 1]
                eq_refl eq_refl)
      as (Hiff & _).
    apply Hiff. split; reflexivity.
  - eexists. reflexivity.
Defined.

(** X17.  An environment constructed for [ActionType.VEL] on a CF2X, CF2P or
    HB has what the VEL decoding reads: its speed limit is
    MAX_SPEED_KMH/120 (3% of the maximum speed, in metres per second), and
    every 4-entry action is decoded into a command of the position
    controller. *)
Theorem vel_environment_decodes
        (K : Collaborators) (cls : Subclass) (a : init_args)
        (out : list string) (b : BaseAviary) (row action : ndarray) :
  act a = member VEL ->
  model_in (drone_model a) [CF2X; CF2P; HB] = true ->
  BaseAviary_init K (super_args a) = Py.Returns out b ->
  nth_error (INIT_XYZS b) 0 = Some row ->
  length (state_vector b) = 20%nat ->
  length action = 4%nat ->
  exists self limit,
    __init__ K cls a = Py.Returns out self
    /\ SPEED_LIMIT self = Some limit
    /\ limit = MAX_SPEED_KMH b / 120
    /\ exists self' rpm,
         _preprocessAction K cls self action = Py.Returns [] (self', Some rpm).
Proof.
  intros Hact Hmodel Hbase Hrow Hlen Hact4.
  destruct (state_vector_entries _ Hlen)
    as (x & y & z & q0 & q1 & q2 & q3 & roll & pitch & yaw
        & vx & vy & vz & wx & wy & wz & m0 & m1 & m2 & m3 & E).
  destruct action as [|a0 [|a1 [|a2 [|a3 [|? ?]]]]]; try discriminate Hact4.
  destruct (v_unit_vector_returns K [a0; a1; a2; a3]) as (v & Hv).
  unfold __init__, create_integrated_controllers. rewrite Hact.
  destruct (drone_model a) as [| | |m]; try discriminate Hmodel;
    cbn [act_in existsb is_act ActionType_eqb orb model_in is_model
         Py.bind Py.ret Py.print app];
    rewrite Hbase; cbn [Py.bind Py.ret andb app]; rewrite Hrow;
    cbn [Py.bind Py.ret app fst snd]; rewrite app_nil_r;
    do 2 eexists; (split; [reflexivity|]); (split; [reflexivity|]);
    (split; [lra|]);
    unfold _preprocessAction; cbn [ACT_TYPE ctrl SPEED_LIMIT base];
    cbn [is_act ActionType_eqb]; rewrite Hv;
    unfold _getDroneStateVector; cbn [base]; rewrite E;
    do 2 eexists; reflexivity.
Qed.

Lemma vel_environment_decodes_witness :
  exists self self' rpm,
    __init__ level_hover plain_subclass (example_args CF2P (member VEL))
    = Py.Returns [] self
    /\ _preprocessAction level_hover plain_subclass self [1; 0; 0; 1]
       = Py.Returns [] (self', Some rpm).
Proof.
  destruct (vel_environment_decodes level_hover plain_subclass
              (example_args CF2P (member VEL)) []
              (example_base (example_state 0 0 1 hover_rpm_cf2x))
              [0; 0; 1] [1; 0; 0; 1]
              eq_refl eq_refl eq_refl eq_refl eq_refl eq_refl)
    as (self & limit & Hrun & _ & _ & self' & rpm & Hdecode).
  exists self, self', rpm. split; assumption.
Defined.

(** ** Observations, continued *)

(** X18.  Under [ObservationType.RGB] a frame is captured only on the steps
    that are multiples of the capture period: on any other step
    [_computeObs] returns the frame it already holds and leaves the
    environment as it is; on a multiple it returns the new frame, keeps it,
    and, when recording, exports it under the frame number
    step_counter/period. *)
Theorem computeObs_rgb_capture_period
        (K : Collaborators) (self : MyAviary) (every : Z) (held : Image) :
  OBS_TYPE self = member RGB ->
  IMG_CAPTURE_FREQ (base self) = Some every ->
  every <> 0%Z ->
  rgb (base self) = Some held ->
  let shot := _getDroneImages K (base self) in
  let fresh := fst (fst shot) in
  ((step_counter (base self) mod every)%Z <> 0%Z ->
     _computeObs K self = Py.Returns [] (self, Some (frame held)))
  /\ ((step_counter (base self) mod every)%Z = 0%Z ->
      RECORD (base self) = false ->
      _computeObs K self
      = Py.Returns []
          (set_base (set_images fresh (snd (fst shot)) (snd shot) (base self))
                    self,
           Some (frame fresh)))
  /\ (forall path,
         (step_counter (base self) mod every)%Z = 0%Z ->
         RECORD (base self) = true ->
         ONBOARD_IMG_PATH (base self) = Some path ->
         exists self',
           _computeObs K self = Py.Returns [] (self', Some (frame fresh))
           /\ rgb (base self') = Some fresh
           /\ exported (base self')
              = exported (base self)
                ++ [(path, (step_counter (base self) / every)%Z, fresh)]).
Proof.
  intros Hobs Hevery Hnz Hheld shot fresh.
  assert (Hz : (every =? 0)%Z = false) by (apply Z.eqb_neq; exact Hnz).
  unfold _computeObs. rewrite Hobs, Hevery. cbn [is_obs Py.getattr].
  rewrite bind_ret_l, Hz, bind_ret_l.
  split; [|split].
  - intros Hmod. apply Z.eqb_neq in Hmod. rewrite Hmod, bind_ret_l, Hheld.
    reflexivity.
  - intros Hmod Hrec. apply Z.eqb_eq in Hmod. rewrite Hmod, Hheld.
    cbn [Py.getattr]. rewrite bind_ret_l.
    cbn [RECORD set_images]. rewrite Hrec. reflexivity.
  - intros path Hmod Hrec Hpath. apply Z.eqb_eq in Hmod. rewrite Hmod, Hheld.
    cbn [Py.getattr]. rewrite bind_ret_l.
    cbn [RECORD ONBOARD_IMG_PATH set_images step_counter]. rewrite Hrec, Hpath.
    eexists. split; [reflexivity|]. split; reflexivity.
Qed.

Lemma computeObs_rgb_capture_period_witness :
  _computeObs level_hover (camera_env 7 false one_pixel)
  = Py.Returns [] (camera_env 7 false one_pixel,
                   Some (frame one_pixel))
  /\ exists self',
       _computeObs level_hover (camera_env 20 true one_pixel)
       = Py.Returns [] (self', Some (frame []))
       /\ exported (base self') = [("onboard/"%string, 2%Z, [])].
Proof.
  split.
  - destruct (computeObs_rgb_capture_period level_hover
                (camera_env 7 false one_pixel) 10 one_pixel
                eq_refl eq_refl ltac:(discriminate) eq_refl)
      as (Hkeep & _).
    apply Hkeep. discriminate.
  - destruct (computeObs_rgb_capture_period level_hover
                (camera_env 20 true one_pixel) 10 one_pixel
                eq_refl eq_refl ltac:(discriminate) eq_refl)
      as (_ & _ & Hexport).
    destruct (Hexport "onboard/"%string eq_refl eq_refl eq_refl)
      as (self' & Hrun & _ & Hout).
    exists self'. split; [exact Hrun|exact Hout].
Defined.

(** X19.  The kinematic observation depends on the position and the target
    through their difference only, and not on the quaternion or the motor
    speeds: two environments whose targets are as far from their drones,
    component by component, and whose states agree on the entries 7 to 15
    (angles, velocity, angular velocity) observe the same vector.  Moving
    the drone and its target together changes nothing. *)
Theorem kin_observation_is_relative
        (K : Collaborators) (self other : MyAviary) :
  OBS_TYPE self = member KIN ->
  OBS_TYPE other = member KIN ->
  length (state_vector (base self)) = 20%nat ->
  length (state_vector (base other)) = 20%nat ->
  length (target_position self) = 3%nat ->
  length (target_position other) = 3%nat ->
  (forall i, (i < 3)%nat ->
     nth i (target_position self) 0 - nth i (state_vector (base self)) 0
     = nth i (target_position other) 0 - nth i (state_vector (base other)) 0) ->
  (forall i, (7 <= i < 16)%nat ->
     nth i (state_vector (base self)) 0 = nth i (state_vector (base other)) 0) ->
  exists v,
    _computeObs K self = Py.Returns [] (self, Some (vector v))
    /\ _computeObs K other = Py.Returns [] (other, Some (vector v)).
Proof.
  intros Hobs Hobs' Hlen Hlen' Htgt Htgt' Hdiff Hrest.
  destruct (computeObs_kin_eval K self Hobs Hlen Htgt) as (Hrun & _ & _).
  destruct (computeObs_kin_eval K other Hobs' Hlen' Htgt') as (Hrun' & _ & _).
  eexists. split; [exact Hrun|]. rewrite Hrun'. do 4 f_equal.
  destruct (state_vector_entries _ Hlen)
    as (x & y & z & q0 & q1 & q2 & q3 & roll & pitch & yaw
        & vx & vy & vz & wx & wy & wz & m0 & m1 & m2 & m3 & E).
  destruct (state_vector_entries _ Hlen')
    as (x' & y' & z' & q0' & q1' & q2' & q3' & roll' & pitch' & yaw'
        & vx' & vy' & vz' & wx' & wy' & wz' & m0' & m1' & m2' & m3' & E').
  destruct (target_position self) as [|t0 [|t1 [|t2 [|? ?]]]];
    try discriminate Htgt.
  destruct (target_position other) as [|u0 [|u1 [|u2 [|? ?]]]];
    try discriminate Htgt'.
  rewrite E, E' in *.
  pose proof (Hdiff 0%nat ltac:(lia)) as D0.
  pose proof (Hdiff 1%nat ltac:(lia)) as D1.
  pose proof (Hdiff 2%nat ltac:(lia)) as D2.
  pose proof (Hrest 7%nat ltac:(lia)) as R7.
  pose proof (Hrest 8%nat ltac:(lia)) as R8.
  pose proof (Hrest 9%nat ltac:(lia)) as R9.
  pose proof (Hrest 10%nat ltac:(lia)) as R10.
  pose proof (Hrest 11%nat ltac:(lia)) as R11.
  pose proof (Hrest 12%nat ltac:(lia)) as R12.
  pose proof (Hrest 13%nat ltac:(lia)) as R13.
  pose proof (Hrest 14%nat ltac:(lia)) as R14.
  pose proof (Hrest 15%nat ltac:(lia)) as R15.
  cbn [nth] in D0, D1, D2, R7, R8, R9, R10, R11, R12, R13, R14, R15.
  subst.
  cbn [np.minus np.zip_with np.slice Nat.sub skipn firstn app].
  rewrite D0, D1, D2. reflexivity.
Qed.

Lemma kin_observation_is_relative_witness :
  exists v,
    _computeObs level_hover first_tick_hovering
    = Py.Returns [] (first_tick_hovering, Some (vector v))
    /\ _computeObs level_hover
         (set_target_position [2; 0; 1]
            (example_env RPM None (example_state 2 0 1 0)))
       = Py.Returns []
           (set_target_position [2; 0; 1]
              (example_env RPM None (example_state 2 0 1 0)),
            Some (vector v)).
Proof.
  apply (kin_observation_is_relative level_hover first_tick_hovering
           (set_target_position [2; 0; 1]
              (example_env RPM None (example_state 2 0 1 0))));
    try reflexivity.
  - intros i Hi. destruct i as [|[|[|i]]]; [| | |lia];
      cbn [nth first_tick_hovering set_target_position target_position
           example_env base example_base state_vector example_state]; lra.
  - intros i Hi.
    do 7 (destruct i as [|i]; [lia|]).
    do 9 (destruct i as [|i]; [reflexivity|]). lia.
Defined.

(** ** What decoding leaves alone *)

(** X20.  Decoding an action never touches the target, the stored action,
    the marker or anything held by the base class: for every action type
    but TUN (where the subclass's routine runs), the environment that
    [_preprocessAction] returns differs from the one it was given in its
    controller at most, and for the open-loop types (RPM, DYN, ONE_D_RPM,
    ONE_D_DYN) and for a value that is no action type it is the same
    environment. *)
Theorem preprocessAction_changes_the_controller_only
        (K : Collaborators) (cls : Subclass) (self self' : MyAviary)
        (action : ndarray) (rpm : pyopt ndarray) :
  is_act (ACT_TYPE self) TUN = false ->
  Py.returned (_preprocessAction K cls self action) = Some (self', rpm) ->
  base self' = base self
  /\ target_position self' = target_position self
  /\ prev_action self' = prev_action self
  /\ target_ID self' = target_ID self
  /\ OBS_TYPE self' = OBS_TYPE self
  /\ ACT_TYPE self' = ACT_TYPE self
  /\ TUNED self' = TUNED self
  /\ SPEED_LIMIT self' = SPEED_LIMIT self
  /\ (act_in (ACT_TYPE self) [PID; VEL; THR; ONE_D_PID] = false -> self' = self).
Proof.
  intros Htun Hret. unfold _preprocessAction in Hret. rewrite Htun in Hret.
  destruct (ACT_TYPE self) as [[]|r] eqn:Hact;
    cbn [is_act ActionType_eqb act_in existsb orb] in Hret |- *;
    try discriminate Htun;
    unfold return_computeControl in Hret;
    repeat (apply bind_returned in Hret;
            destruct Hret as (? & ? & _ & Hret));
    cbn [Py.ret Py.returned] in Hret; injection Hret as <- <-;
    cbn [set_ctrl base target_position prev_action target_ID OBS_TYPE
         ACT_TYPE TUNED SPEED_LIMIT];
    repeat split; try assumption; try reflexivity; try discriminate.
Qed.

Lemma preprocessAction_changes_the_controller_only_witness :
  exists self' rpm,
    Py.returned (_preprocessAction level_hover plain_subclass
                   (equipped_env VEL) [1; 0; 0; 1])
    = Some (self', rpm)
    /\ target_position self' = [0; 0; 1]
    /\ prev_action self' = None.
Proof.
  destruct (v_unit_vector_returns level_hover [1; 0; 0; 1]) as (v & Hv).
  assert (Hrun : exists self' rpm,
             _preprocessAction level_hover plain_subclass (equipped_env VEL)
                               [1; 0; 0; 1]
             = Py.Returns [] (self', rpm)).
  { unfold _preprocessAction.
    cbn [equipped_env ACT_TYPE is_act ActionType_eqb]. rewrite Hv.
    do 2 eexists. reflexivity. }
  destruct Hrun as (self' & rpm & Hrun).
  exists self', rpm. rewrite Hrun. split; [reflexivity|].
  destruct (preprocessAction_changes_the_controller_only level_hover
              plain_subclass (equipped_env VEL) self' [1; 0; 0; 1] rpm
              eq_refl)
    as (_ & Htarget & Hprev & _).
  { rewrite Hrun. reflexivity. }
  split; [exact Htarget|exact Hprev].
Defined.
